(** * Waveform.h: the waveform data model of libscopehal

    A shallow embedding of [WaveformBase] and [Waveform<S>]
    (scopehal/Waveform.h) together with the properties of their lifecycle
    operations: resizing, clearing, domain preparation, modification
    marking, timestamp copying and the default decode hooks.

    Member functions mutate [this]; they are written here in state-passing
    style, the object being the last argument and the result.  Virtual
    dispatch is made explicit in [Dispatch]: an object is either a bare
    [WaveformBase] or a [Waveform<S>], and a virtual call selects the body
    of the dynamic type. *)

From Stdlib Require Import ZArith String.
From stdpp Require Import base option list.

(** ** The dual-residency buffer *)

Module AcceleratorBuffer.

(** Modelled from the spec: the residency states of AcceleratorBuffer<T>
    (AcceleratorBuffer.h is not among the sources).  The four states are
    those of the conceptual per-buffer state machine. *)
Inductive Residency : Set :=
  | Uninitialized
  | CpuValid
  | GpuValid
  | BothValid.

(** Modelled from the spec: the usage hints accepted by SetCpuAccessHint and
    SetGpuAccessHint of the missing AcceleratorBuffer.h; the recognised
    options are NEVER, LIKELY and ALWAYS. *)
Inductive UsageHint : Set :=
  | HINT_NEVER
  | HINT_LIKELY
  | HINT_ALWAYS.

#[global] Instance Residency_eq_dec : EqDecision Residency.
Proof. solve_decision. Defined.

#[global] Instance UsageHint_eq_dec : EqDecision UsageHint.
Proof. solve_decision. Defined.

Definition cpu_valid (r : Residency) : bool :=
  match r with
  | CpuValid | BothValid => true
  | Uninitialized | GpuValid => false
  end.

Definition gpu_valid (r : Residency) : bool :=
  match r with
  | GpuValid | BothValid => true
  | Uninitialized | CpuValid => false
  end.

Section Buffer.

Context {T : Type}.

(** Modelled from the spec: the data of the missing class AcceleratorBuffer<T>,
    one ordered sequence of T held in a CPU-visible and a GPU-visible domain.
    [m_cpu] and [m_gpu] are the two copies, a cell being [None] while its
    content is unspecified; [m_residency] says which copies are valid. *)
Record t : Type := Build {
  m_cpu : list (option T);
  m_gpu : list (option T);
  m_residency : Residency;
  m_cpuAccessHint : UsageHint;
  m_gpuAccessHint : UsageHint
}.

(** Modelled from the spec: the default constructor of the missing
    AcceleratorBuffer<T>: no element, nothing valid in either domain.  The
    spec does not give the initial hints; they are the parameters
    [cpuHint0] and [gpuHint0]. *)
Definition fresh (cpuHint0 gpuHint0 : UsageHint) : t :=
  {| m_cpu := [];
     m_gpu := [];
     m_residency := Uninitialized;
     m_cpuAccessHint := cpuHint0;
     m_gpuAccessHint := gpuHint0 |}.

(** Modelled from the spec: size() of the missing AcceleratorBuffer<T>, the
    length of the sequence. *)
Definition size (b : t) : nat := length (m_cpu b).

(** Both copies span the whole sequence. *)
Definition well_formed (b : t) : Prop := length (m_gpu b) = length (m_cpu b).

(** Modelled from the spec: resize(n) of the missing AcceleratorBuffer<T>.
    It changes the length to n; the spec leaves the content unspecified,
    both beyond and below the prior length, and resets the state
    conservatively to Uninitialized. *)
Definition resize (n : nat) (b : t) : t :=
  {| m_cpu := replicate n None;
     m_gpu := replicate n None;
     m_residency := Uninitialized;
     m_cpuAccessHint := m_cpuAccessHint b;
     m_gpuAccessHint := m_gpuAccessHint b |}.

(** Modelled from the spec: clear() of the missing AcceleratorBuffer<T>,
    which is resize to 0. *)
Definition clear (b : t) : t := resize 0 b.

(** Modelled from the spec: PrepareForCpuAccess() of the missing
    AcceleratorBuffer<T>.  It ensures the CPU copy is valid, transferring
    GPU to CPU when the CPU copy is stale, does nothing when it is already
    valid, and never changes GPU validity. *)
Definition PrepareForCpuAccess (b : t) : t :=
  match m_residency b with
  | GpuValid =>
      {| m_cpu := m_gpu b;
         m_gpu := m_gpu b;
         m_residency := BothValid;
         m_cpuAccessHint := m_cpuAccessHint b;
         m_gpuAccessHint := m_gpuAccessHint b |}
  | Uninitialized =>
      {| m_cpu := m_cpu b;
         m_gpu := m_gpu b;
         m_residency := CpuValid;
         m_cpuAccessHint := m_cpuAccessHint b;
         m_gpuAccessHint := m_gpuAccessHint b |}
  | CpuValid | BothValid => b
  end.

(** Modelled from the spec: PrepareForGpuAccess() of the missing
    AcceleratorBuffer<T>, the mirror image of PrepareForCpuAccess(). *)
Definition PrepareForGpuAccess (b : t) : t :=
  match m_residency b with
  | CpuValid =>
      {| m_cpu := m_cpu b;
         m_gpu := m_cpu b;
         m_residency := BothValid;
         m_cpuAccessHint := m_cpuAccessHint b;
         m_gpuAccessHint := m_gpuAccessHint b |}
  | Uninitialized =>
      {| m_cpu := m_cpu b;
         m_gpu := m_gpu b;
         m_residency := GpuValid;
         m_cpuAccessHint := m_cpuAccessHint b;
         m_gpuAccessHint := m_gpuAccessHint b |}
  | GpuValid | BothValid => b
  end.

(** Modelled from the spec: MarkModifiedFromCpu() of the missing
    AcceleratorBuffer<T>.  It declares the CPU copy authoritative and the
    GPU copy stale, without copying. *)
Definition MarkModifiedFromCpu (b : t) : t :=
  {| m_cpu := m_cpu b;
     m_gpu := m_gpu b;
     m_residency := CpuValid;
     m_cpuAccessHint := m_cpuAccessHint b;
     m_gpuAccessHint := m_gpuAccessHint b |}.

(** Modelled from the spec: MarkModifiedFromGpu() of the missing
    AcceleratorBuffer<T>, the mirror image of MarkModifiedFromCpu(). *)
Definition MarkModifiedFromGpu (b : t) : t :=
  {| m_cpu := m_cpu b;
     m_gpu := m_gpu b;
     m_residency := GpuValid;
     m_cpuAccessHint := m_cpuAccessHint b;
     m_gpuAccessHint := m_gpuAccessHint b |}.

(** Modelled from the spec: CopyFrom(rhs) of the missing AcceleratorBuffer<T>.
    It overwrites the content of this buffer with that of [rhs]; the caller
    must have sized this buffer to match, and a mismatch is undefined
    ([None]).  The residency travels with the content; the hints stay. *)
Definition CopyFrom (rhs b : t) : option t :=
  if decide (size b = size rhs) then
    Some {| m_cpu := m_cpu rhs;
            m_gpu := m_gpu rhs;
            m_residency := m_residency rhs;
            m_cpuAccessHint := m_cpuAccessHint b;
            m_gpuAccessHint := m_gpuAccessHint b |}
  else None.

(** Modelled from the spec: SetCpuAccessHint(hint) of the missing
    AcceleratorBuffer<T>, a configuration that does not touch the state
    machine. *)
Definition SetCpuAccessHint (hint : UsageHint) (b : t) : t :=
  {| m_cpu := m_cpu b;
     m_gpu := m_gpu b;
     m_residency := m_residency b;
     m_cpuAccessHint := hint;
     m_gpuAccessHint := m_gpuAccessHint b |}.

(** Modelled from the spec: SetGpuAccessHint(hint) of the missing
    AcceleratorBuffer<T>. *)
Definition SetGpuAccessHint (hint : UsageHint) (b : t) : t :=
  {| m_cpu := m_cpu b;
     m_gpu := m_gpu b;
     m_residency := m_residency b;
     m_cpuAccessHint := m_cpuAccessHint b;
     m_gpuAccessHint := hint |}.

(** Modelled from the spec: a direct indexed write on the CPU side
    (operator[] of the missing AcceleratorBuffer<T>).  It stores into the
    CPU copy only; an index outside the buffer is undefined ([None]). *)
Definition cpu_write (i : nat) (v : T) (b : t) : option t :=
  if decide (i < size b) then
    Some {| m_cpu := <[i := Some v]> (m_cpu b);
            m_gpu := m_gpu b;
            m_residency := m_residency b;
            m_cpuAccessHint := m_cpuAccessHint b;
            m_gpuAccessHint := m_gpuAccessHint b |}
  else None.

(** A sequence of indexed CPU-side writes, in program order. *)
Fixpoint cpu_writes (ws : list (nat * T)) (b : t) : option t :=
  match ws with
  | [] => Some b
  | (i, v) :: ws' => b' ← cpu_write i v b; cpu_writes ws' b'
  end.

(** The value read on the CPU side at index [i]: [None] outside the buffer
    or where the content is unspecified. *)
Definition cpu_read (i : nat) (b : t) : option T := mjoin (m_cpu b !! i).

End Buffer.

Arguments t : clear implicits.

End AcceleratorBuffer.

(** ** WaveformBase *)

Module WaveformBase.

Import AcceleratorBuffer.

(** The metadata and the two timestamp buffers.  int64_t, time_t, uint8_t
    and uint64_t fields are integers; no operation of this file computes
    with them. *)
Record t : Type := Build {
  m_timescale : Z;
  m_startTimestamp : Z;
  m_startFemtoseconds : Z;
  m_triggerPhase : Z;
  m_densePacked : bool;
  m_flags : Z;
  m_revision : Z;
  m_offsets : AcceleratorBuffer.t Z;
  m_durations : AcceleratorBuffer.t Z
}.

Definition WAVEFORM_CLIPPING : Z := 1.

(** Assignment to the two buffer members, every other member kept. *)
Definition with_timestamps (o d : AcceleratorBuffer.t Z) (w : t) : t :=
  {| m_timescale := m_timescale w;
     m_startTimestamp := m_startTimestamp w;
     m_startFemtoseconds := m_startFemtoseconds w;
     m_triggerPhase := m_triggerPhase w;
     m_densePacked := m_densePacked w;
     m_flags := m_flags w;
     m_revision := m_revision w;
     m_offsets := o;
     m_durations := d |}.

(** The scalar members, in declaration order. *)
Definition metadata (w : t) : Z * Z * Z * Z * bool * Z * Z :=
  (m_timescale w, m_startTimestamp w, m_startFemtoseconds w,
   m_triggerPhase w, m_densePacked w, m_flags w, m_revision w).

Section Methods.

(** The hints a default-constructed buffer starts with. *)
Variables cpuHint0 gpuHint0 : UsageHint.

(** StandardColors.h is not among the sources: the palette
    [StandardColors::colors] and the index [StandardColors::COLOR_ERROR]
    are parameters. *)
Variable Color : Type.
Variable colors : nat -> Color.
Variable COLOR_ERROR : nat.

(** WaveformBase::WaveformBase() *)
Definition new : t :=
  {| m_timescale := 0;
     m_startTimestamp := 0;
     m_startFemtoseconds := 0;
     m_triggerPhase := 0;
     m_densePacked := false;
     m_flags := 0;
     m_revision := 0;
     m_offsets := PrepareForCpuAccess (fresh cpuHint0 gpuHint0);
     m_durations := PrepareForCpuAccess (fresh cpuHint0 gpuHint0) |}.

(** WaveformBase::clear() *)
Definition clear (w : t) : t :=
  with_timestamps (AcceleratorBuffer.clear (m_offsets w))
                  (AcceleratorBuffer.clear (m_durations w)) w.

(** WaveformBase::Resize(size) *)
Definition Resize (size : nat) (w : t) : t :=
  with_timestamps (resize size (m_offsets w))
                  (resize size (m_durations w)) w.

(** WaveformBase::GetText(i): the result and the object, which the body
    does not touch. *)
Definition GetText (i : nat) (w : t) : string * t :=
  ("(unimplemented)"%string, w).

(** WaveformBase::GetColor(i) *)
Definition GetColor (i : nat) (w : t) : Color * t :=
  (colors COLOR_ERROR, w).

(** WaveformBase::PrepareForCpuAccess() *)
Definition PrepareForCpuAccess (w : t) : t :=
  with_timestamps (AcceleratorBuffer.PrepareForCpuAccess (m_offsets w))
                  (AcceleratorBuffer.PrepareForCpuAccess (m_durations w)) w.

(** WaveformBase::PrepareForGpuAccess() *)
Definition PrepareForGpuAccess (w : t) : t :=
  with_timestamps (AcceleratorBuffer.PrepareForGpuAccess (m_offsets w))
                  (AcceleratorBuffer.PrepareForGpuAccess (m_durations w)) w.

(** WaveformBase::CopyTimestamps(rhs).  The two CopyFrom calls run in
    order; the call is undefined as soon as one of them is. *)
Definition CopyTimestamps (rhs : t) (w : t) : option t :=
  o ← CopyFrom (m_offsets rhs) (m_offsets w);
  d ← CopyFrom (m_durations rhs) (m_durations w);
  Some (with_timestamps o d w).

(** WaveformBase::MarkSamplesModifiedFromCpu(): empty body. *)
Definition MarkSamplesModifiedFromCpu (w : t) : t := w.

(** WaveformBase::MarkSamplesModifiedFromGpu(): empty body. *)
Definition MarkSamplesModifiedFromGpu (w : t) : t := w.

(** WaveformBase::MarkTimestampsModifiedFromCpu(): empty body. *)
Definition MarkTimestampsModifiedFromCpu (w : t) : t := w.

(** WaveformBase::MarkTimestampsModifiedFromGpu(): empty body. *)
Definition MarkTimestampsModifiedFromGpu (w : t) : t := w.

End Methods.

End WaveformBase.

(** ** Waveform<S> *)

Module Waveform.

Import AcceleratorBuffer.

Section Waveform.

Context {S : Type}.

(** A Waveform<S> is its WaveformBase subobject and the sample buffer. *)
Record t : Type := Build {
  base : WaveformBase.t;
  m_samples : AcceleratorBuffer.t S
}.

Definition m_offsets (w : t) : AcceleratorBuffer.t Z :=
  WaveformBase.m_offsets (base w).

Definition m_durations (w : t) : AcceleratorBuffer.t Z :=
  WaveformBase.m_durations (base w).

Definition with_timestamps (o d : AcceleratorBuffer.t Z) (w : t) : t :=
  {| base := WaveformBase.with_timestamps o d (base w);
     m_samples := m_samples w |}.

Definition with_samples (s : AcceleratorBuffer.t S) (w : t) : t :=
  {| base := base w; m_samples := s |}.

Variables cpuHint0 gpuHint0 : UsageHint.

(** Waveform<S>::Waveform(): the base constructor, the default constructor
    of the member [m_samples], then the body. *)
Definition new : t :=
  {| base := WaveformBase.new cpuHint0 gpuHint0;
     m_samples :=
       SetGpuAccessHint HINT_LIKELY
         (SetCpuAccessHint HINT_LIKELY (fresh cpuHint0 gpuHint0)) |}.

(** Waveform<S>::Resize(size) *)
Definition Resize (size : nat) (w : t) : t :=
  with_samples (resize size (m_samples w))
    (with_timestamps (resize size (m_offsets w))
                     (resize size (m_durations w)) w).

(** Waveform<S>::clear() *)
Definition clear (w : t) : t :=
  with_samples (AcceleratorBuffer.clear (m_samples w))
    (with_timestamps (AcceleratorBuffer.clear (m_offsets w))
                     (AcceleratorBuffer.clear (m_durations w)) w).

(** Waveform<S>::PrepareForCpuAccess() *)
Definition PrepareForCpuAccess (w : t) : t :=
  with_samples (AcceleratorBuffer.PrepareForCpuAccess (m_samples w))
    (with_timestamps (AcceleratorBuffer.PrepareForCpuAccess (m_offsets w))
                     (AcceleratorBuffer.PrepareForCpuAccess (m_durations w))
                     w).

(** Waveform<S>::PrepareForGpuAccess() *)
Definition PrepareForGpuAccess (w : t) : t :=
  with_samples (AcceleratorBuffer.PrepareForGpuAccess (m_samples w))
    (with_timestamps (AcceleratorBuffer.PrepareForGpuAccess (m_offsets w))
                     (AcceleratorBuffer.PrepareForGpuAccess (m_durations w))
                     w).

(** Waveform<S>::MarkTimestampsModifiedFromCpu() *)
Definition MarkTimestampsModifiedFromCpu (w : t) : t :=
  with_timestamps (MarkModifiedFromCpu (m_offsets w))
                  (MarkModifiedFromCpu (m_durations w)) w.

(** Waveform<S>::MarkTimestampsModifiedFromGpu() *)
Definition MarkTimestampsModifiedFromGpu (w : t) : t :=
  with_timestamps (MarkModifiedFromGpu (m_offsets w))
                  (MarkModifiedFromGpu (m_durations w)) w.

(** Waveform<S>::MarkSamplesModifiedFromCpu() *)
Definition MarkSamplesModifiedFromCpu (w : t) : t :=
  with_samples (MarkModifiedFromCpu (m_samples w)) w.

(** Waveform<S>::MarkSamplesModifiedFromGpu() *)
Definition MarkSamplesModifiedFromGpu (w : t) : t :=
  with_samples (MarkModifiedFromGpu (m_samples w)) w.

(** The inherited, non-virtual WaveformBase::CopyTimestamps(rhs) called on
    a Waveform<S>: it runs on the base subobject. *)
Definition CopyTimestamps (rhs : WaveformBase.t) (w : t) : option t :=
  b ← WaveformBase.CopyTimestamps rhs (base w);
  Some {| base := b; m_samples := m_samples w |}.

(** The inherited WaveformBase::GetText(i), which Waveform<S> does not
    override. *)
Definition GetText (i : nat) (w : t) : string * t :=
  let (s, b) := WaveformBase.GetText i (base w) in
  (s, {| base := b; m_samples := m_samples w |}).

Variable Color : Type.
Variable colors : nat -> Color.
Variable COLOR_ERROR : nat.

(** The inherited WaveformBase::GetColor(i), which Waveform<S> does not
    override. *)
Definition GetColor (i : nat) (w : t) : Color * t :=
  let (c, b) := WaveformBase.GetColor Color colors COLOR_ERROR i (base w) in
  (c, {| base := b; m_samples := m_samples w |}).

End Waveform.

Arguments t : clear implicits.

End Waveform.

(** ** Virtual dispatch *)

Module Dispatch.

Section Dispatch.

Context {S : Type}.

Variable Color : Type.
Variable colors : nat -> Color.
Variable COLOR_ERROR : nat.

(** The dynamic type of an object reached through a [WaveformBase*]. *)
Inductive Object : Type :=
  | Bare (b : WaveformBase.t)
  | Sampled (w : Waveform.t S).

(** The WaveformBase subobject. *)
Definition as_base (o : Object) : WaveformBase.t :=
  match o with
  | Bare b => b
  | Sampled w => Waveform.base w
  end.

(** The sample buffer, when the dynamic type has one. *)
Definition samples (o : Object) : option (AcceleratorBuffer.t S) :=
  match o with
  | Bare _ => None
  | Sampled w => Some (Waveform.m_samples w)
  end.

Definition clear (o : Object) : Object :=
  match o with
  | Bare b => Bare (WaveformBase.clear b)
  | Sampled w => Sampled (Waveform.clear w)
  end.

Definition Resize (size : nat) (o : Object) : Object :=
  match o with
  | Bare b => Bare (WaveformBase.Resize size b)
  | Sampled w => Sampled (Waveform.Resize size w)
  end.

Definition GetText (i : nat) (o : Object) : string * Object :=
  match o with
  | Bare b => let (s, b') := WaveformBase.GetText i b in (s, Bare b')
  | Sampled w => let (s, w') := Waveform.GetText i w in (s, Sampled w')
  end.

Definition GetColor (i : nat) (o : Object) : Color * Object :=
  match o with
  | Bare b =>
      let (c, b') := WaveformBase.GetColor Color colors COLOR_ERROR i b in
      (c, Bare b')
  | Sampled w =>
      let (c, w') := Waveform.GetColor Color colors COLOR_ERROR i w in
      (c, Sampled w')
  end.

Definition PrepareForCpuAccess (o : Object) : Object :=
  match o with
  | Bare b => Bare (WaveformBase.PrepareForCpuAccess b)
  | Sampled w => Sampled (Waveform.PrepareForCpuAccess w)
  end.

Definition PrepareForGpuAccess (o : Object) : Object :=
  match o with
  | Bare b => Bare (WaveformBase.PrepareForGpuAccess b)
  | Sampled w => Sampled (Waveform.PrepareForGpuAccess w)
  end.

(** CopyTimestamps is not virtual: the same body for both dynamic types. *)
Definition CopyTimestamps (rhs : WaveformBase.t) (o : Object) : option Object :=
  match o with
  | Bare b => Bare <$> WaveformBase.CopyTimestamps rhs b
  | Sampled w => Sampled <$> Waveform.CopyTimestamps rhs w
  end.

Definition MarkSamplesModifiedFromCpu (o : Object) : Object :=
  match o with
  | Bare b => Bare (WaveformBase.MarkSamplesModifiedFromCpu b)
  | Sampled w => Sampled (Waveform.MarkSamplesModifiedFromCpu w)
  end.

Definition MarkSamplesModifiedFromGpu (o : Object) : Object :=
  match o with
  | Bare b => Bare (WaveformBase.MarkSamplesModifiedFromGpu b)
  | Sampled w => Sampled (Waveform.MarkSamplesModifiedFromGpu w)
  end.

Definition MarkTimestampsModifiedFromCpu (o : Object) : Object :=
  match o with
  | Bare b => Bare (WaveformBase.MarkTimestampsModifiedFromCpu b)
  | Sampled w => Sampled (Waveform.MarkTimestampsModifiedFromCpu w)
  end.

Definition MarkTimestampsModifiedFromGpu (o : Object) : Object :=
  match o with
  | Bare b => Bare (WaveformBase.MarkTimestampsModifiedFromGpu b)
  | Sampled w => Sampled (Waveform.MarkTimestampsModifiedFromGpu w)
  end.

(** The member functions of the class, as calls on an object. *)
Inductive Call : Type :=
  | CallClear
  | CallResize (size : nat)
  | CallGetText (i : nat)
  | CallGetColor (i : nat)
  | CallPrepareForCpuAccess
  | CallPrepareForGpuAccess
  | CallCopyTimestamps (rhs : WaveformBase.t)
  | CallMarkSamplesModifiedFromCpu
  | CallMarkSamplesModifiedFromGpu
  | CallMarkTimestampsModifiedFromCpu
  | CallMarkTimestampsModifiedFromGpu.

(** The object after one call; [None] when the call is undefined. *)
Definition invoke (c : Call) (o : Object) : option Object :=
  match c with
  | CallClear => Some (clear o)
  | CallResize size => Some (Resize size o)
  | CallGetText i => Some (GetText i o).2
  | CallGetColor i => Some (GetColor i o).2
  | CallPrepareForCpuAccess => Some (PrepareForCpuAccess o)
  | CallPrepareForGpuAccess => Some (PrepareForGpuAccess o)
  | CallCopyTimestamps rhs => CopyTimestamps rhs o
  | CallMarkSamplesModifiedFromCpu => Some (MarkSamplesModifiedFromCpu o)
  | CallMarkSamplesModifiedFromGpu => Some (MarkSamplesModifiedFromGpu o)
  | CallMarkTimestampsModifiedFromCpu => Some (MarkTimestampsModifiedFromCpu o)
  | CallMarkTimestampsModifiedFromGpu => Some (MarkTimestampsModifiedFromGpu o)
  end.

(** The object after a sequence of calls, in program order. *)
Fixpoint run (cs : list Call) (o : Object) : option Object :=
  match cs with
  | [] => Some o
  | c :: cs' => o' ← invoke c o; run cs' o'
  end.

End Dispatch.

Arguments Object : clear implicits.
Arguments Call : clear implicits.

End Dispatch.

(** ** The dense-packed layout *)

(** The last value a sequence of writes stores at index [i], if any. *)
Fixpoint last_written {T : Type} (i : nat) (ws : list (nat * T)) : option T :=
  match ws with
  | [] => None
  | (j, v) :: ws' =>
      match last_written i ws' with
      | Some v' => Some v'
      | None => if decide (j = i) then Some v else None
      end
  end.

(** A copy superseded by the other one: the CPU copy of a buffer valid on
    the GPU only, the GPU copy of a buffer valid on the CPU only. *)
Definition cpu_stale (r : AcceleratorBuffer.Residency) : bool :=
  match r with
  | AcceleratorBuffer.GpuValid => true
  | _ => false
  end.

Definition gpu_stale (r : AcceleratorBuffer.Residency) : bool :=
  match r with
  | AcceleratorBuffer.CpuValid => true
  | _ => false
  end.

(** The copies of a buffer that stand for its content: those that are not
    stale.  While no copy is marked valid, both do, as the next
    PrepareForCpuAccess() or PrepareForGpuAccess() hands either out as it
    is. *)
Definition current_copies {T : Type} (b : AcceleratorBuffer.t T)
    : list (list (option T)) :=
  (if cpu_stale (AcceleratorBuffer.m_residency b) then []
   else [AcceleratorBuffer.m_cpu b])
  ++ (if gpu_stale (AcceleratorBuffer.m_residency b) then []
      else [AcceleratorBuffer.m_gpu b]).

(** The offsets 0, 1, ..., n-1, and n durations of 1. *)
Definition dense_offsets (n : nat) : list (option Z) :=
  (λ i : nat, Some (Z.of_nat i)) <$> seq 0 n.

Definition dense_durations (n : nat) : list (option Z) :=
  replicate n (Some 1%Z).

(** What m_densePacked stands for: the durations are always 1 and the
    offsets range from 0 to size-1, in every copy of the two timestamp
    buffers that is not stale. *)
Definition dense_layout (w : WaveformBase.t) : Prop :=
  ∃ n : nat,
    Forall (λ l, l = dense_offsets n)
      (current_copies (WaveformBase.m_offsets w))
    ∧ Forall (λ l, l = dense_durations n)
        (current_copies (WaveformBase.m_durations w)).

Definition dense_packed_ok (w : WaveformBase.t) : Prop :=
  WaveformBase.m_densePacked w = true → dense_layout w.


(** ** The producer sequence and some concrete waveforms *)

(** Modelled from the spec: the producer interface on one buffer, which is
    resize(n), direct indexed writes of the n values, then
    MarkModifiedFromCpu(); the callers that do this are not among the
    sources. *)
Definition produce {T : Type} (vs : list T) (b : AcceleratorBuffer.t T)
    : option (AcceleratorBuffer.t T) :=
  AcceleratorBuffer.MarkModifiedFromCpu
    <$> AcceleratorBuffer.cpu_writes (imap (λ i v, (i, v)) vs)
          (AcceleratorBuffer.resize (length vs) b).

(** The buffer [produce] leaves behind. *)
Definition produced {T : Type} (cpuHint gpuHint : AcceleratorBuffer.UsageHint)
    (vs : list T) : AcceleratorBuffer.t T :=
  {| AcceleratorBuffer.m_cpu := Some <$> vs;
     AcceleratorBuffer.m_gpu := replicate (length vs) None;
     AcceleratorBuffer.m_residency := AcceleratorBuffer.CpuValid;
     AcceleratorBuffer.m_cpuAccessHint := cpuHint;
     AcceleratorBuffer.m_gpuAccessHint := gpuHint |}.

(** A constructed WaveformBase after the producer set the timestamps and
    the dense-packed flag. *)
Definition timestamped (dense : bool) (offsets durations : list Z)
    : WaveformBase.t :=
  {| WaveformBase.m_timescale := 0;
     WaveformBase.m_startTimestamp := 0;
     WaveformBase.m_startFemtoseconds := 0;
     WaveformBase.m_triggerPhase := 0;
     WaveformBase.m_densePacked := dense;
     WaveformBase.m_flags := 0;
     WaveformBase.m_revision := 0;
     WaveformBase.m_offsets :=
       produced AcceleratorBuffer.HINT_LIKELY AcceleratorBuffer.HINT_LIKELY
         offsets;
     WaveformBase.m_durations :=
       produced AcceleratorBuffer.HINT_LIKELY AcceleratorBuffer.HINT_LIKELY
         durations |}.

(** Three dense-packed samples. *)
Definition dense3 : WaveformBase.t :=
  timestamped true [0; 1; 2]%Z [1; 1; 1]%Z.

(** Three run-length compressed samples, not dense packed. *)
Definition sparse3 : WaveformBase.t :=
  timestamped false [0; 5; 7]%Z [5; 2; 3]%Z.

(** [dense3] after CopyTimestamps(sparse3): the timestamps of [sparse3]
    under the flag of [dense3]. *)
Definition dense3_overwritten : WaveformBase.t :=
  timestamped true [0; 5; 7]%Z [5; 2; 3]%Z.

(** A constructed bare WaveformBase whose timestamp buffers were then
    prepared for the GPU: both are valid in both domains. *)
Definition bare_synced : WaveformBase.t :=
  WaveformBase.PrepareForGpuAccess
    (WaveformBase.new AcceleratorBuffer.HINT_LIKELY
                      AcceleratorBuffer.HINT_LIKELY).

(** A two-element buffer just resized, three writes to it, and the buffer
    the writes leave. *)
Definition blank2 : AcceleratorBuffer.t Z :=
  AcceleratorBuffer.resize 2
    (AcceleratorBuffer.fresh AcceleratorBuffer.HINT_LIKELY
                             AcceleratorBuffer.HINT_LIKELY).

Definition writes2 : list (nat * Z) := [(0, 7%Z); (1, 9%Z); (0, 8%Z)].

Definition written2 : AcceleratorBuffer.t Z :=
  {| AcceleratorBuffer.m_cpu := [Some 8%Z; Some 9%Z];
     AcceleratorBuffer.m_gpu := [None; None];
     AcceleratorBuffer.m_residency := AcceleratorBuffer.Uninitialized;
     AcceleratorBuffer.m_cpuAccessHint := AcceleratorBuffer.HINT_LIKELY;
     AcceleratorBuffer.m_gpuAccessHint := AcceleratorBuffer.HINT_LIKELY |}.

(** A palette for concrete calls of GetColor: entry 0 is the error color. *)
Definition demo_colors (i : nat) : string :=
  match i with
  | 0 => "#ff0000"
  | _ => "#000000"
  end%string.


(** A lifecycle of a digital waveform: size it, mark the timestamps,
    prepare for the GPU, clear. *)
Definition lifecycle4 : list Dispatch.Call :=
  [Dispatch.CallResize 3; Dispatch.CallMarkTimestampsModifiedFromCpu;
   Dispatch.CallPrepareForGpuAccess; Dispatch.CallClear].

(** A constructed digital waveform resized to three samples. *)
Definition digital3 : Waveform.t bool :=
  Waveform.Resize 3
    (Waveform.new AcceleratorBuffer.HINT_LIKELY AcceleratorBuffer.HINT_LIKELY).

(** ** Views of a whole object *)

Section ObjectViews.

Context {S : Type}.

(** A property of every buffer the object owns: the two timestamp buffers,
    and the sample buffer when the dynamic type has one. *)
Definition all_buffers (P : ∀ T : Type, AcceleratorBuffer.t T → Prop)
    (o : Dispatch.Object S) : Prop :=
  P Z (WaveformBase.m_offsets (Dispatch.as_base o))
  ∧ P Z (WaveformBase.m_durations (Dispatch.as_base o))
  ∧ from_option (P S) True (Dispatch.samples o).

(** A relation between every buffer of an object before and after a call. *)
Definition all_buffers2
    (R : ∀ T : Type, AcceleratorBuffer.t T → AcceleratorBuffer.t T → Prop)
    (o o' : Dispatch.Object S) : Prop :=
  R Z (WaveformBase.m_offsets (Dispatch.as_base o))
      (WaveformBase.m_offsets (Dispatch.as_base o'))
  ∧ R Z (WaveformBase.m_durations (Dispatch.as_base o))
        (WaveformBase.m_durations (Dispatch.as_base o'))
  ∧ option_Forall2 (R S) (Dispatch.samples o) (Dispatch.samples o').

(** The lengths of the offsets, of the durations and, when there is a
    sample buffer, of the samples. *)
Definition lengths (o : Dispatch.Object S) : nat * nat * option nat :=
  (AcceleratorBuffer.size (WaveformBase.m_offsets (Dispatch.as_base o)),
   AcceleratorBuffer.size (WaveformBase.m_durations (Dispatch.as_base o)),
   AcceleratorBuffer.size <$> Dispatch.samples o).

(** In every buffer the two domain copies have the same length. *)
Definition object_well_formed (o : Dispatch.Object S) : Prop :=
  all_buffers (λ T b, AcceleratorBuffer.well_formed b) o.

(** The cross-buffer length invariant: as many durations as offsets, and
    as many samples when there is a sample buffer. *)
Definition lengths_agree (o : Dispatch.Object S) : Prop :=
  AcceleratorBuffer.size (WaveformBase.m_durations (Dispatch.as_base o))
  = AcceleratorBuffer.size (WaveformBase.m_offsets (Dispatch.as_base o))
  ∧ from_option
      (λ s, AcceleratorBuffer.size s
            = AcceleratorBuffer.size (WaveformBase.m_offsets (Dispatch.as_base o)))
      True (Dispatch.samples o).

Definition consistent (o : Dispatch.Object S) : Prop :=
  object_well_formed o ∧ lengths_agree o.

End ObjectViews.

(** The calls that set lengths: clear and Resize. *)
Definition sets_lengths (c : Dispatch.Call) : bool :=
  match c with
  | Dispatch.CallClear | Dispatch.CallResize _ => true
  | _ => false
  end.

(** The source of a CopyTimestamps call has well-formed timestamp buffers;
    nothing is asked of the other calls. *)
Definition rhs_well_formed (c : Dispatch.Call) : Prop :=
  match c with
  | Dispatch.CallCopyTimestamps rhs =>
      AcceleratorBuffer.well_formed (WaveformBase.m_offsets rhs)
      ∧ AcceleratorBuffer.well_formed (WaveformBase.m_durations rhs)
  | _ => True
  end.

(** A bare WaveformBase whose timestamp buffers are valid in both domains
    and whose CPU copy of the offsets was then overwritten at index 1. *)
Definition stale3 : WaveformBase.t :=
  {| WaveformBase.m_timescale := 0;
     WaveformBase.m_startTimestamp := 0;
     WaveformBase.m_startFemtoseconds := 0;
     WaveformBase.m_triggerPhase := 0;
     WaveformBase.m_densePacked := false;
     WaveformBase.m_flags := 0;
     WaveformBase.m_revision := 0;
     WaveformBase.m_offsets :=
       {| AcceleratorBuffer.m_cpu := [Some 0; Some 5; Some 2]%Z;
          AcceleratorBuffer.m_gpu := [Some 0; Some 1; Some 2]%Z;
          AcceleratorBuffer.m_residency := AcceleratorBuffer.BothValid;
          AcceleratorBuffer.m_cpuAccessHint := AcceleratorBuffer.HINT_LIKELY;
          AcceleratorBuffer.m_gpuAccessHint := AcceleratorBuffer.HINT_LIKELY |};
     WaveformBase.m_durations :=
       {| AcceleratorBuffer.m_cpu := [Some 1; Some 1; Some 1]%Z;
          AcceleratorBuffer.m_gpu := [Some 1; Some 1; Some 1]%Z;
          AcceleratorBuffer.m_residency := AcceleratorBuffer.BothValid;
          AcceleratorBuffer.m_cpuAccessHint := AcceleratorBuffer.HINT_LIKELY;
          AcceleratorBuffer.m_gpuAccessHint := AcceleratorBuffer.HINT_LIKELY |} |}.

(** A lifecycle with a timestamp copy in it. *)
Definition lifecycle_copy : list Dispatch.Call :=
  [Dispatch.CallResize 3; Dispatch.CallCopyTimestamps sparse3;
   Dispatch.CallMarkSamplesModifiedFromCpu; Dispatch.CallPrepareForGpuAccess;
   Dispatch.CallPrepareForCpuAccess; Dispatch.CallGetText 0].

(** The calling sequence that hands CPU-side content of a Waveform<S> to
    the GPU: both marks from the CPU, then PrepareForGpuAccess(). *)
Definition publish_from_cpu {S : Type} (w : Waveform.t S) : Waveform.t S :=
  Waveform.PrepareForGpuAccess
    (Waveform.MarkSamplesModifiedFromCpu
       (Waveform.MarkTimestampsModifiedFromCpu w)).

(** The calling sequence that hands GPU-side content of a Waveform<S> to
    the CPU: both marks from the GPU, then PrepareForCpuAccess(). *)
Definition publish_from_gpu {S : Type} (w : Waveform.t S) : Waveform.t S :=
  Waveform.PrepareForCpuAccess
    (Waveform.MarkSamplesModifiedFromGpu
       (Waveform.MarkTimestampsModifiedFromGpu w)).

(** The digital waveform [lifecycle_copy] leaves when run on a constructed
    one. *)
Definition lifecycle_copy_result : Waveform.t bool :=
  Waveform.PrepareForGpuAccess
    (Waveform.MarkSamplesModifiedFromCpu
       {| Waveform.base := sparse3;
          Waveform.m_samples := Waveform.m_samples digital3 |}).

(** * Properties *)

(** ** The buffer *)

Section BufferFacts.

Import AcceleratorBuffer.

Context {T : Type}.

Implicit Types (b : AcceleratorBuffer.t T) (ws : list (nat * T)).

Lemma size_resize n b : size (resize n b) = n.
Proof. unfold size, resize; simpl. apply length_replicate. Qed.

Lemma size_clear b : size (clear b) = 0.
Proof. apply size_resize. Qed.

Lemma well_formed_fresh h1 h2 : well_formed (fresh (T:=T) h1 h2).
Proof. reflexivity. Qed.

Lemma well_formed_resize n b : well_formed (resize n b).
Proof. unfold well_formed; simpl. by rewrite !length_replicate. Qed.

Lemma well_formed_PrepareForCpuAccess b :
  well_formed b → well_formed (PrepareForCpuAccess b).
Proof.
  unfold well_formed, PrepareForCpuAccess.
  destruct (m_residency b); simpl; congruence.
Qed.

Lemma well_formed_PrepareForGpuAccess b :
  well_formed b → well_formed (PrepareForGpuAccess b).
Proof.
  unfold well_formed, PrepareForGpuAccess.
  destruct (m_residency b); simpl; congruence.
Qed.

Lemma well_formed_CopyFrom rhs b b' :
  well_formed rhs → CopyFrom rhs b = Some b' → well_formed b'.
Proof.
  unfold CopyFrom, well_formed. intros Hwf Hcopy.
  case_decide; [|done]. by simplify_eq.
Qed.

Lemma size_PrepareForCpuAccess b :
  well_formed b → size (PrepareForCpuAccess b) = size b.
Proof.
  unfold well_formed, size, PrepareForCpuAccess.
  destruct (m_residency b); simpl; congruence.
Qed.

Lemma size_PrepareForGpuAccess b : size (PrepareForGpuAccess b) = size b.
Proof. unfold size, PrepareForGpuAccess. by destruct (m_residency b). Qed.

Lemma cpu_write_Some i v b :
  i < size b → ∃ b', cpu_write i v b = Some b'.
Proof. intros Hi. unfold cpu_write. rewrite decide_True by done. eauto. Qed.

Lemma cpu_write_size i v b b' : cpu_write i v b = Some b' → size b' = size b.
Proof.
  unfold cpu_write, size. intros Hw. case_decide; [|done]. simplify_eq.
  simpl. apply length_insert.
Qed.

Lemma cpu_write_read i v b b' j :
  cpu_write i v b = Some b' →
  cpu_read j b' = if decide (i = j) then Some v else cpu_read j b.
Proof.
  unfold cpu_write, cpu_read, size. intros Hw.
  case_decide as Hi; [|done]. simplify_eq. simpl.
  destruct (decide (i = j)) as [->|Hne].
  - by rewrite list_lookup_insert_eq.
  - by rewrite list_lookup_insert_ne.
Qed.

Lemma cpu_write_frame i v b b' :
  cpu_write i v b = Some b' →
  m_gpu b' = m_gpu b ∧ m_residency b' = m_residency b
  ∧ m_cpuAccessHint b' = m_cpuAccessHint b
  ∧ m_gpuAccessHint b' = m_gpuAccessHint b.
Proof.
  unfold cpu_write. intros Hw. case_decide; [|done]. by simplify_eq.
Qed.

Lemma cpu_writes_size ws b b' : cpu_writes ws b = Some b' → size b' = size b.
Proof.
  revert b. induction ws as [|[i v] ws IH]; intros b Hw; simpl in Hw.
  - by simplify_eq.
  - destruct (cpu_write i v b) as [b1|] eqn:Hb1; [|done]. simpl in Hw.
    rewrite (IH _ Hw). by eapply cpu_write_size.
Qed.

(** After a sequence of writes, a cell holds the last value written to it,
    or what it held before when no write went there. *)
Lemma cpu_writes_read ws b b' i :
  cpu_writes ws b = Some b' →
  cpu_read i b' = match last_written i ws with
                  | Some v => Some v
                  | None => cpu_read i b
                  end.
Proof.
  revert b. induction ws as [|[j v] ws IH]; intros b Hw; simpl in Hw.
  - by simplify_eq.
  - destruct (cpu_write j v b) as [b1|] eqn:Hb1; [|done]. simpl in Hw.
    rewrite (IH _ Hw). simpl.
    destruct (last_written i ws); [done|].
    rewrite (cpu_write_read _ _ _ _ i Hb1). by case_decide.
Qed.

(** The residency after the publish-and-read-back sequence, from any state. *)
Lemma residency_round_trip b :
  m_residency (PrepareForCpuAccess (PrepareForGpuAccess (MarkModifiedFromCpu b)))
  = BothValid.
Proof. reflexivity. Qed.

(** PrepareForCpuAccess is idempotent. *)
Lemma PrepareForCpuAccess_idem b :
  PrepareForCpuAccess (PrepareForCpuAccess b) = PrepareForCpuAccess b.
Proof. unfold PrepareForCpuAccess. by destruct (m_residency b) eqn:E; simpl; rewrite ?E. Qed.

(** PrepareForCpuAccess makes the CPU copy valid and leaves GPU validity. *)
Lemma PrepareForCpuAccess_valid b :
  cpu_valid (m_residency (PrepareForCpuAccess b)) = true
  ∧ gpu_valid (m_residency (PrepareForCpuAccess b)) = gpu_valid (m_residency b).
Proof. unfold PrepareForCpuAccess. by destruct (m_residency b) eqn:E; simpl; rewrite ?E. Qed.

(** C4.  A buffer written on the CPU side, then marked modified from the
    CPU, prepared for GPU access and prepared for CPU access again, shows on
    the CPU side exactly what the writes left there: the CPU copy is the one
    the writes produced, every index written reads back the last value
    written to it, and the GPU copy has received the same content. *)
Theorem cpu_write_sync_round_trip (ws : list (nat * T)) (b b1 : AcceleratorBuffer.t T) :
  cpu_writes ws b = Some b1 →
  let b2 := PrepareForCpuAccess (PrepareForGpuAccess (MarkModifiedFromCpu b1)) in
  m_cpu b2 = m_cpu b1
  ∧ (∀ i v, last_written i ws = Some v → cpu_read i b2 = Some v)
  ∧ m_gpu b2 = m_cpu b1
  ∧ m_residency b2 = BothValid.
Proof.
  intros Hw b2. subst b2. repeat split.
  intros i v Hlast. unfold cpu_read; simpl.
  pose proof (cpu_writes_read _ _ _ i Hw) as Hread.
  rewrite Hlast in Hread. exact Hread.
Qed.

End BufferFacts.

Section BufferWitnesses.

Import AcceleratorBuffer.

Lemma cpu_write_sync_round_trip_witness :
  cpu_writes writes2 blank2 = Some written2
  ∧ (let b2 := PrepareForCpuAccess
                 (PrepareForGpuAccess (MarkModifiedFromCpu written2)) in
     m_cpu b2 = m_cpu written2
     ∧ (∀ i v, last_written i writes2 = Some v → cpu_read i b2 = Some v)
     ∧ m_gpu b2 = m_cpu written2
     ∧ m_residency b2 = BothValid).
Proof.
  split; [reflexivity|].
  apply (cpu_write_sync_round_trip writes2 blank2 written2). reflexivity.
Defined.

End BufferWitnesses.

(** ** The waveform operations *)

Section WaveformFacts.

Import AcceleratorBuffer.

Context {S : Type}.

Variable Color : Type.
Variable colors : nat -> Color.
Variable COLOR_ERROR : nat.

Implicit Types (w : Waveform.t S) (b : WaveformBase.t) (o : Dispatch.Object S).

(** C1.  After Resize(n) on a Waveform<S> the offsets, durations and samples
    buffers all have length n; after Resize(n) on a bare WaveformBase both
    timestamp buffers have length n. *)
Theorem Resize_lengths (n : nat) w b :
  size (Waveform.m_offsets (Waveform.Resize n w)) = n
  ∧ size (Waveform.m_durations (Waveform.Resize n w)) = n
  ∧ size (Waveform.m_samples (Waveform.Resize n w)) = n
  ∧ size (WaveformBase.m_offsets (WaveformBase.Resize n b)) = n
  ∧ size (WaveformBase.m_durations (WaveformBase.Resize n b)) = n.
Proof. repeat split; apply size_resize. Qed.

(** The same through a virtual call, whatever the dynamic type. *)
Lemma Resize_lengths_virtual (n : nat) o :
  size (WaveformBase.m_offsets (Dispatch.as_base (Dispatch.Resize n o))) = n
  ∧ size (WaveformBase.m_durations (Dispatch.as_base (Dispatch.Resize n o))) = n
  ∧ size <$> Dispatch.samples (Dispatch.Resize n o)
    = (λ _, n) <$> Dispatch.samples o.
Proof. destruct o; simpl; repeat split; try apply size_resize. f_equal. apply size_resize. Qed.

(** clear() empties every buffer of the object. *)
Lemma clear_lengths w b :
  size (Waveform.m_offsets (Waveform.clear w)) = 0
  ∧ size (Waveform.m_durations (Waveform.clear w)) = 0
  ∧ size (Waveform.m_samples (Waveform.clear w)) = 0
  ∧ size (WaveformBase.m_offsets (WaveformBase.clear b)) = 0
  ∧ size (WaveformBase.m_durations (WaveformBase.clear b)) = 0.
Proof. repeat split; apply size_clear. Qed.

(** CopyTimestamps is defined exactly when both timestamp buffers of the
    destination have the sizes of the source's. *)
Lemma WaveformBase_CopyTimestamps_Some rhs b :
  size (WaveformBase.m_offsets b) = size (WaveformBase.m_offsets rhs) →
  size (WaveformBase.m_durations b) = size (WaveformBase.m_durations rhs) →
  WaveformBase.CopyTimestamps rhs b
  = Some (WaveformBase.with_timestamps
            (Build (m_cpu (WaveformBase.m_offsets rhs))
                   (m_gpu (WaveformBase.m_offsets rhs))
                   (m_residency (WaveformBase.m_offsets rhs))
                   (m_cpuAccessHint (WaveformBase.m_offsets b))
                   (m_gpuAccessHint (WaveformBase.m_offsets b)))
            (Build (m_cpu (WaveformBase.m_durations rhs))
                   (m_gpu (WaveformBase.m_durations rhs))
                   (m_residency (WaveformBase.m_durations rhs))
                   (m_cpuAccessHint (WaveformBase.m_durations b))
                   (m_gpuAccessHint (WaveformBase.m_durations b)))
            b).
Proof.
  intros Ho Hd. unfold WaveformBase.CopyTimestamps, CopyFrom.
  rewrite !decide_True by done. reflexivity.
Qed.

Lemma WaveformBase_CopyTimestamps_None rhs b :
  size (WaveformBase.m_offsets b) ≠ size (WaveformBase.m_offsets rhs)
  ∨ size (WaveformBase.m_durations b) ≠ size (WaveformBase.m_durations rhs) →
  WaveformBase.CopyTimestamps rhs b = None.
Proof.
  intros H. unfold WaveformBase.CopyTimestamps, CopyFrom.
  destruct (decide (size (WaveformBase.m_offsets b)
                    = size (WaveformBase.m_offsets rhs))); [|done].
  destruct (decide (size (WaveformBase.m_durations b)
                    = size (WaveformBase.m_durations rhs))); [|done].
  destruct H; contradiction.
Qed.

(** C2.  When the timestamp buffers of B have the lengths of those of A,
    B.CopyTimestamps(A) is defined and leaves in B the offsets and the
    durations of A, entry by entry (in both domains, with A's residency),
    and does not touch B's sample buffer. *)
Theorem CopyTimestamps_entrywise (A : WaveformBase.t) (B : Dispatch.Object S) :
  size (WaveformBase.m_offsets (Dispatch.as_base B))
  = size (WaveformBase.m_offsets A) →
  size (WaveformBase.m_durations (Dispatch.as_base B))
  = size (WaveformBase.m_durations A) →
  ∃ B', Dispatch.CopyTimestamps A B = Some B'
    ∧ (∀ i, cpu_read i (WaveformBase.m_offsets (Dispatch.as_base B'))
            = cpu_read i (WaveformBase.m_offsets A))
    ∧ (∀ i, cpu_read i (WaveformBase.m_durations (Dispatch.as_base B'))
            = cpu_read i (WaveformBase.m_durations A))
    ∧ m_cpu (WaveformBase.m_offsets (Dispatch.as_base B'))
      = m_cpu (WaveformBase.m_offsets A)
    ∧ m_gpu (WaveformBase.m_offsets (Dispatch.as_base B'))
      = m_gpu (WaveformBase.m_offsets A)
    ∧ m_cpu (WaveformBase.m_durations (Dispatch.as_base B'))
      = m_cpu (WaveformBase.m_durations A)
    ∧ m_gpu (WaveformBase.m_durations (Dispatch.as_base B'))
      = m_gpu (WaveformBase.m_durations A)
    ∧ Dispatch.samples B' = Dispatch.samples B.
Proof.
  intros Ho Hd.
  destruct B as [b|w]; simpl in *.
  - rewrite (WaveformBase_CopyTimestamps_Some A b Ho Hd). simpl.
    eexists; split; [reflexivity|]. simpl. by repeat split.
  - unfold Waveform.CopyTimestamps.
    rewrite (WaveformBase_CopyTimestamps_Some A (Waveform.base w) Ho Hd). simpl.
    eexists; split; [reflexivity|]. simpl. by repeat split.
Qed.

(** The calling sequence of the header: the destination is first resized
    to the length of the source. *)
Lemma Resize_then_CopyTimestamps (A : WaveformBase.t) w :
  size (WaveformBase.m_durations A) = size (WaveformBase.m_offsets A) →
  ∃ w', Waveform.CopyTimestamps A
          (Waveform.Resize (size (WaveformBase.m_offsets A)) w) = Some w'
    ∧ m_cpu (Waveform.m_offsets w') = m_cpu (WaveformBase.m_offsets A)
    ∧ m_cpu (Waveform.m_durations w') = m_cpu (WaveformBase.m_durations A)
    ∧ size (Waveform.m_samples w') = size (WaveformBase.m_offsets A).
Proof.
  intros Hlen. unfold Waveform.CopyTimestamps.
  rewrite WaveformBase_CopyTimestamps_Some.
  - simpl. eexists; split; [reflexivity|]. simpl. repeat split. apply size_resize.
  - simpl. apply size_resize.
  - simpl. rewrite Hlen. apply size_resize.
Qed.

(** On a Waveform<S> the timestamp marks are forwarded to both timestamp
    buffers, which end up valid on the marked side only, and keep their
    content. *)
Lemma MarkTimestampsModified_residency w :
  m_residency (Waveform.m_offsets (Waveform.MarkTimestampsModifiedFromCpu w))
  = CpuValid
  ∧ m_residency (Waveform.m_durations (Waveform.MarkTimestampsModifiedFromCpu w))
    = CpuValid
  ∧ m_residency (Waveform.m_offsets (Waveform.MarkTimestampsModifiedFromGpu w))
    = GpuValid
  ∧ m_residency (Waveform.m_durations (Waveform.MarkTimestampsModifiedFromGpu w))
    = GpuValid.
Proof. by repeat split. Qed.

(** C3, as amended.  On every Waveform<S>, MarkTimestampsModifiedFromCpu()
    and MarkTimestampsModifiedFromGpu() forward the corresponding
    MarkModifiedFrom* call to the offsets buffer and to the durations buffer,
    and leave the sample buffer as it is. *)
Theorem MarkTimestampsModified_forwards w :
  WaveformBase.m_offsets
    (Dispatch.as_base (Dispatch.MarkTimestampsModifiedFromCpu (Dispatch.Sampled w)))
  = MarkModifiedFromCpu (Waveform.m_offsets w)
  ∧ WaveformBase.m_durations
      (Dispatch.as_base (Dispatch.MarkTimestampsModifiedFromCpu (Dispatch.Sampled w)))
    = MarkModifiedFromCpu (Waveform.m_durations w)
  ∧ Dispatch.samples (Dispatch.MarkTimestampsModifiedFromCpu (Dispatch.Sampled w))
    = Some (Waveform.m_samples w)
  ∧ WaveformBase.m_offsets
      (Dispatch.as_base (Dispatch.MarkTimestampsModifiedFromGpu (Dispatch.Sampled w)))
    = MarkModifiedFromGpu (Waveform.m_offsets w)
  ∧ WaveformBase.m_durations
      (Dispatch.as_base (Dispatch.MarkTimestampsModifiedFromGpu (Dispatch.Sampled w)))
    = MarkModifiedFromGpu (Waveform.m_durations w)
  ∧ Dispatch.samples (Dispatch.MarkTimestampsModifiedFromGpu (Dispatch.Sampled w))
    = Some (Waveform.m_samples w).
Proof. by repeat split. Qed.

(** On a bare WaveformBase the timestamp marks reach no buffer. *)
Lemma bare_MarkTimestampsModified_noop b :
  Dispatch.MarkTimestampsModifiedFromCpu (S:=S) (Dispatch.Bare b) = Dispatch.Bare b
  ∧ Dispatch.MarkTimestampsModifiedFromGpu (S:=S) (Dispatch.Bare b) = Dispatch.Bare b.
Proof. by split. Qed.

(** The sample marks of a Waveform<S> reach the sample buffer only. *)
Lemma MarkSamplesModified_forwards w :
  Waveform.m_samples (Waveform.MarkSamplesModifiedFromCpu w)
  = MarkModifiedFromCpu (Waveform.m_samples w)
  ∧ Waveform.m_samples (Waveform.MarkSamplesModifiedFromGpu w)
    = MarkModifiedFromGpu (Waveform.m_samples w)
  ∧ Waveform.base (Waveform.MarkSamplesModifiedFromCpu w) = Waveform.base w
  ∧ Waveform.base (Waveform.MarkSamplesModifiedFromGpu w) = Waveform.base w.
Proof. by repeat split. Qed.

(** C9.  On a bare WaveformBase, MarkSamplesModifiedFromCpu() and
    MarkSamplesModifiedFromGpu() change nothing: the object after the call
    is the object before it, so the offsets buffer, the durations buffer and
    every metadata field are unchanged. *)
Theorem bare_MarkSamplesModified_noop b :
  Dispatch.MarkSamplesModifiedFromCpu (S:=S) (Dispatch.Bare b) = Dispatch.Bare b
  ∧ Dispatch.MarkSamplesModifiedFromGpu (S:=S) (Dispatch.Bare b) = Dispatch.Bare b
  ∧ WaveformBase.m_offsets (WaveformBase.MarkSamplesModifiedFromCpu b)
    = WaveformBase.m_offsets b
  ∧ WaveformBase.m_durations (WaveformBase.MarkSamplesModifiedFromCpu b)
    = WaveformBase.m_durations b
  ∧ WaveformBase.metadata (WaveformBase.MarkSamplesModifiedFromCpu b)
    = WaveformBase.metadata b
  ∧ WaveformBase.m_offsets (WaveformBase.MarkSamplesModifiedFromGpu b)
    = WaveformBase.m_offsets b
  ∧ WaveformBase.m_durations (WaveformBase.MarkSamplesModifiedFromGpu b)
    = WaveformBase.m_durations b
  ∧ WaveformBase.metadata (WaveformBase.MarkSamplesModifiedFromGpu b)
    = WaveformBase.metadata b.
Proof. by repeat split. Qed.

(** C8.  Neither WaveformBase nor Waveform<S> overrides the decode hooks:
    for every object and every index, GetText(i) returns the string
    (unimplemented) and GetColor(i) returns the palette entry COLOR_ERROR;
    both always return and leave the object as it is. *)
Theorem decode_hooks_default (i : nat) o :
  Dispatch.GetText i o = ("(unimplemented)"%string, o)
  ∧ Dispatch.GetColor Color colors COLOR_ERROR i o = (colors COLOR_ERROR, o).
Proof. by destruct o as [b|[b s]]. Qed.

(** C7.  The constructor of Waveform<S> leaves the CPU access hint and the
    GPU access hint of the sample buffer at LIKELY, hence not at ALWAYS,
    whatever the hints of a default-constructed buffer are. *)
Theorem Waveform_new_hints (cpuHint0 gpuHint0 : UsageHint) :
  m_cpuAccessHint (Waveform.m_samples (Waveform.new (S:=S) cpuHint0 gpuHint0))
  = HINT_LIKELY
  ∧ m_gpuAccessHint (Waveform.m_samples (Waveform.new (S:=S) cpuHint0 gpuHint0))
    = HINT_LIKELY
  ∧ m_cpuAccessHint (Waveform.m_samples (Waveform.new (S:=S) cpuHint0 gpuHint0))
    ≠ HINT_ALWAYS
  ∧ m_gpuAccessHint (Waveform.m_samples (Waveform.new (S:=S) cpuHint0 gpuHint0))
    ≠ HINT_ALWAYS.
Proof. by repeat split. Qed.

(** The constructor of Waveform<S> only configures the sample buffer: it is
    empty and valid nowhere. *)
Lemma Waveform_new_samples (cpuHint0 gpuHint0 : UsageHint) :
  size (Waveform.m_samples (Waveform.new (S:=S) cpuHint0 gpuHint0)) = 0
  ∧ m_residency (Waveform.m_samples (Waveform.new (S:=S) cpuHint0 gpuHint0))
    = Uninitialized.
Proof. by split. Qed.

(** C10.  The constructor of WaveformBase sets timescale, startTimestamp,
    startFemtoseconds, triggerPhase, flags and revision to 0 and densePacked
    to false, and prepares both timestamp buffers for CPU access: each is a
    default-constructed buffer after PrepareForCpuAccess(), valid on the CPU
    side and of length 0. *)
Theorem WaveformBase_new_initial (cpuHint0 gpuHint0 : UsageHint) :
  WaveformBase.m_timescale (WaveformBase.new cpuHint0 gpuHint0) = 0%Z
  ∧ WaveformBase.m_startTimestamp (WaveformBase.new cpuHint0 gpuHint0) = 0%Z
  ∧ WaveformBase.m_startFemtoseconds (WaveformBase.new cpuHint0 gpuHint0) = 0%Z
  ∧ WaveformBase.m_triggerPhase (WaveformBase.new cpuHint0 gpuHint0) = 0%Z
  ∧ WaveformBase.m_densePacked (WaveformBase.new cpuHint0 gpuHint0) = false
  ∧ WaveformBase.m_flags (WaveformBase.new cpuHint0 gpuHint0) = 0%Z
  ∧ WaveformBase.m_revision (WaveformBase.new cpuHint0 gpuHint0) = 0%Z
  ∧ WaveformBase.m_offsets (WaveformBase.new cpuHint0 gpuHint0)
    = PrepareForCpuAccess (fresh cpuHint0 gpuHint0)
  ∧ WaveformBase.m_durations (WaveformBase.new cpuHint0 gpuHint0)
    = PrepareForCpuAccess (fresh cpuHint0 gpuHint0)
  ∧ m_residency (WaveformBase.m_offsets (WaveformBase.new cpuHint0 gpuHint0))
    = CpuValid
  ∧ m_residency (WaveformBase.m_durations (WaveformBase.new cpuHint0 gpuHint0))
    = CpuValid
  ∧ cpu_valid
      (m_residency (WaveformBase.m_offsets (WaveformBase.new cpuHint0 gpuHint0)))
    = true
  ∧ cpu_valid
      (m_residency (WaveformBase.m_durations (WaveformBase.new cpuHint0 gpuHint0)))
    = true
  ∧ size (WaveformBase.m_offsets (WaveformBase.new cpuHint0 gpuHint0)) = 0
  ∧ size (WaveformBase.m_durations (WaveformBase.new cpuHint0 gpuHint0)) = 0.
Proof. by repeat split. Qed.

(** The base subobject of a constructed Waveform<S> is a constructed
    WaveformBase. *)
Lemma Waveform_new_base (cpuHint0 gpuHint0 : UsageHint) :
  Waveform.base (Waveform.new (S:=S) cpuHint0 gpuHint0)
  = WaveformBase.new cpuHint0 gpuHint0.
Proof. reflexivity. Qed.

(** The synchronization round trip on a whole Waveform<S>: after both marks from the
    CPU, PrepareForGpuAccess() and PrepareForCpuAccess(), the CPU copy of
    each of the three buffers is what it was and each buffer is valid in
    both domains. *)
Lemma Waveform_sync_round_trip w :
  let w' := Waveform.PrepareForCpuAccess
              (Waveform.PrepareForGpuAccess
                 (Waveform.MarkSamplesModifiedFromCpu
                    (Waveform.MarkTimestampsModifiedFromCpu w))) in
  m_cpu (Waveform.m_offsets w') = m_cpu (Waveform.m_offsets w)
  ∧ m_cpu (Waveform.m_durations w') = m_cpu (Waveform.m_durations w)
  ∧ m_cpu (Waveform.m_samples w') = m_cpu (Waveform.m_samples w)
  ∧ m_residency (Waveform.m_offsets w') = BothValid
  ∧ m_residency (Waveform.m_durations w') = BothValid
  ∧ m_residency (Waveform.m_samples w') = BothValid.
Proof. by repeat split. Qed.

End WaveformFacts.

(** ** Sequences of calls: metadata, revision and the dense-packed layout *)

Section Lifecycle.

Import AcceleratorBuffer.

Context {S : Type}.

Variable Color : Type.
Variable colors : nat -> Color.
Variable COLOR_ERROR : nat.

Implicit Types (o : Dispatch.Object S) (c : Dispatch.Call)
  (cs : list Dispatch.Call).

Local Abbreviation invoke := (Dispatch.invoke Color colors COLOR_ERROR).
Local Abbreviation run := (Dispatch.run Color colors COLOR_ERROR).

Lemma WaveformBase_CopyTimestamps_metadata rhs b b' :
  WaveformBase.CopyTimestamps rhs b = Some b' →
  WaveformBase.metadata b' = WaveformBase.metadata b.
Proof.
  unfold WaveformBase.CopyTimestamps. intros H.
  destruct (CopyFrom _ (WaveformBase.m_offsets b)) as [x|]; [|done].
  destruct (CopyFrom _ (WaveformBase.m_durations b)) as [y|]; [|done].
  by simplify_eq/=.
Qed.

(** No member function writes a scalar member. *)
Lemma invoke_metadata c o o' :
  invoke c o = Some o' →
  WaveformBase.metadata (Dispatch.as_base o')
  = WaveformBase.metadata (Dispatch.as_base o).
Proof.
  destruct c, o as [b|w]; simpl; intros H; try by simplify_eq.
  - destruct (WaveformBase.CopyTimestamps rhs b) as [b'|] eqn:E; [|done].
    simplify_eq/=. by eapply WaveformBase_CopyTimestamps_metadata.
  - unfold Waveform.CopyTimestamps in H.
    destruct (WaveformBase.CopyTimestamps rhs (Waveform.base w)) as [b'|] eqn:E;
      [|done].
    simplify_eq/=. by eapply WaveformBase_CopyTimestamps_metadata.
Qed.

Lemma run_metadata cs o o' :
  run cs o = Some o' →
  WaveformBase.metadata (Dispatch.as_base o')
  = WaveformBase.metadata (Dispatch.as_base o).
Proof.
  revert o. induction cs as [|c cs IH]; intros o H; simpl in H.
  - by simplify_eq.
  - destruct (invoke c o) as [o1|] eqn:E; [|done]. simpl in H.
    rewrite (IH _ H). by eapply invoke_metadata.
Qed.

Lemma metadata_revision (b b' : WaveformBase.t) :
  WaveformBase.metadata b' = WaveformBase.metadata b →
  WaveformBase.m_revision b' = WaveformBase.m_revision b.
Proof. unfold WaveformBase.metadata. congruence. Qed.


(** The revision is the same after any sequence of calls. *)
Lemma run_revision cs o o' :
  run cs o = Some o' →
  WaveformBase.m_revision (Dispatch.as_base o')
  = WaveformBase.m_revision (Dispatch.as_base o).
Proof. intros H. apply metadata_revision. by eapply run_metadata. Qed.

(** Every call but CopyTimestamps with mismatched sizes is defined. *)
Lemma invoke_defined c o :
  (∀ rhs, c ≠ Dispatch.CallCopyTimestamps rhs) → is_Some (invoke c o).
Proof. intros Hc. destruct c; simpl; eauto. by destruct (Hc rhs). Qed.

(** C6.  The revision counter is 0 in a constructed WaveformBase and in a
    constructed Waveform<S>, and no sequence of member-function calls
    (clear, Resize, GetText, GetColor, PrepareForCpuAccess,
    PrepareForGpuAccess, CopyTimestamps, the four Mark calls) on an object of
    either dynamic type, in any state, decreases it: none of them writes it,
    so it is never set back. *)
Theorem revision_non_decreasing (cpuHint0 gpuHint0 : UsageHint) cs o o' :
  run cs o = Some o' →
  WaveformBase.m_revision (WaveformBase.new cpuHint0 gpuHint0) = 0%Z
  ∧ WaveformBase.m_revision
      (Waveform.base (Waveform.new (S:=S) cpuHint0 gpuHint0)) = 0%Z
  ∧ (WaveformBase.m_revision (Dispatch.as_base o)
     ≤ WaveformBase.m_revision (Dispatch.as_base o'))%Z
  ∧ WaveformBase.m_revision (Dispatch.as_base o')
    = WaveformBase.m_revision (Dispatch.as_base o).
Proof.
  intros H. pose proof (run_revision _ _ _ H) as Hrev.
  repeat split; [|done]. rewrite Hrev. reflexivity.
Qed.

End Lifecycle.

(** ** Concrete runs *)

Section Scenarios.

Import AcceleratorBuffer.

(** The producer sequence on a default-constructed buffer. *)
Example produce_fresh :
  produce [0; 5; 7]%Z (fresh HINT_LIKELY HINT_LIKELY)
  = Some (produced HINT_LIKELY HINT_LIKELY [0; 5; 7]%Z).
Proof. reflexivity. Qed.

Lemma dense3_layout : dense_layout dense3.
Proof. exists 3. split; by repeat constructor. Qed.


(** Scenario A of the spec: the dense layout holds on the produced
    waveform, and clear() then empties it. *)
Example scenario_dense_then_clear :
  dense_packed_ok dense3
  ∧ size (WaveformBase.m_offsets (WaveformBase.clear dense3)) = 0
  ∧ size (WaveformBase.m_durations (WaveformBase.clear dense3)) = 0.
Proof. split; [intros _; apply dense3_layout|by split]. Qed.

Lemma CopyTimestamps_entrywise_witness :
  size (WaveformBase.m_offsets (Dispatch.as_base (Dispatch.Sampled digital3)))
  = size (WaveformBase.m_offsets sparse3)
  ∧ size (WaveformBase.m_durations (Dispatch.as_base (Dispatch.Sampled digital3)))
    = size (WaveformBase.m_durations sparse3)
  ∧ ∃ B', Dispatch.CopyTimestamps sparse3 (Dispatch.Sampled digital3) = Some B'
      ∧ (∀ i, cpu_read i (WaveformBase.m_offsets (Dispatch.as_base B'))
              = cpu_read i (WaveformBase.m_offsets sparse3))
      ∧ (∀ i, cpu_read i (WaveformBase.m_durations (Dispatch.as_base B'))
              = cpu_read i (WaveformBase.m_durations sparse3))
      ∧ m_cpu (WaveformBase.m_offsets (Dispatch.as_base B'))
        = m_cpu (WaveformBase.m_offsets sparse3)
      ∧ m_gpu (WaveformBase.m_offsets (Dispatch.as_base B'))
        = m_gpu (WaveformBase.m_offsets sparse3)
      ∧ m_cpu (WaveformBase.m_durations (Dispatch.as_base B'))
        = m_cpu (WaveformBase.m_durations sparse3)
      ∧ m_gpu (WaveformBase.m_durations (Dispatch.as_base B'))
        = m_gpu (WaveformBase.m_durations sparse3)
      ∧ Dispatch.samples B' = Dispatch.samples (Dispatch.Sampled digital3).
Proof.
  split; [reflexivity|]. split; [reflexivity|].
  apply (CopyTimestamps_entrywise sparse3 (Dispatch.Sampled digital3));
    reflexivity.
Defined.

(** Scenario B of the spec: the copied timestamps read back on the CPU
    side, the samples of the destination being those it had. *)
Example scenario_copy_timestamps :
  ∃ w', Waveform.CopyTimestamps sparse3 digital3 = Some w'
    ∧ m_cpu (Waveform.m_offsets w') = [Some 0; Some 5; Some 7]%Z
    ∧ m_cpu (Waveform.m_durations w') = [Some 5; Some 2; Some 3]%Z
    ∧ Waveform.m_samples w' = Waveform.m_samples digital3.
Proof. eexists. split; [reflexivity|]. by repeat split. Qed.

(** C3, the claim as stated fails on a bare WaveformBase: its timestamp
    buffers, valid in both domains, are still so after
    MarkTimestampsModifiedFromCpu() and after MarkTimestampsModifiedFromGpu(),
    where a forwarded MarkModifiedFromCpu() or MarkModifiedFromGpu() would
    have left them valid on one side only. *)
Lemma bare_MarkTimestampsModified_not_forwarded :
  m_residency
    (WaveformBase.m_offsets
       (Dispatch.as_base
          (Dispatch.MarkTimestampsModifiedFromCpu (S:=bool)
             (Dispatch.Bare bare_synced))))
  = BothValid
  ∧ m_residency (MarkModifiedFromCpu (WaveformBase.m_offsets bare_synced))
    = CpuValid
  ∧ WaveformBase.m_offsets
      (Dispatch.as_base
         (Dispatch.MarkTimestampsModifiedFromCpu (S:=bool)
            (Dispatch.Bare bare_synced)))
    ≠ MarkModifiedFromCpu (WaveformBase.m_offsets bare_synced)
  ∧ WaveformBase.m_durations
      (Dispatch.as_base
         (Dispatch.MarkTimestampsModifiedFromCpu (S:=bool)
            (Dispatch.Bare bare_synced)))
    ≠ MarkModifiedFromCpu (WaveformBase.m_durations bare_synced)
  ∧ m_residency
      (WaveformBase.m_offsets
         (Dispatch.as_base
            (Dispatch.MarkTimestampsModifiedFromGpu (S:=bool)
               (Dispatch.Bare bare_synced))))
    = BothValid
  ∧ m_residency (MarkModifiedFromGpu (WaveformBase.m_offsets bare_synced))
    = GpuValid
  ∧ WaveformBase.m_offsets
      (Dispatch.as_base
         (Dispatch.MarkTimestampsModifiedFromGpu (S:=bool)
            (Dispatch.Bare bare_synced)))
    ≠ MarkModifiedFromGpu (WaveformBase.m_offsets bare_synced)
  ∧ WaveformBase.m_durations
      (Dispatch.as_base
         (Dispatch.MarkTimestampsModifiedFromGpu (S:=bool)
            (Dispatch.Bare bare_synced)))
    ≠ MarkModifiedFromGpu (WaveformBase.m_durations bare_synced).
Proof. repeat split; discriminate. Qed.


Lemma revision_non_decreasing_witness :
  Dispatch.run string demo_colors 0 lifecycle4 (Dispatch.Sampled digital3)
  = Some (Dispatch.Sampled
            (Waveform.clear
               (Waveform.PrepareForGpuAccess
                  (Waveform.MarkTimestampsModifiedFromCpu
                     (Waveform.Resize 3 digital3)))))
  ∧ WaveformBase.m_revision (WaveformBase.new HINT_LIKELY HINT_LIKELY) = 0%Z
  ∧ WaveformBase.m_revision
      (Waveform.base (Waveform.new (S:=bool) HINT_LIKELY HINT_LIKELY)) = 0%Z
  ∧ (WaveformBase.m_revision (Dispatch.as_base (Dispatch.Sampled digital3))
     ≤ WaveformBase.m_revision
         (Dispatch.as_base
            (Dispatch.Sampled
               (Waveform.clear
                  (Waveform.PrepareForGpuAccess
                     (Waveform.MarkTimestampsModifiedFromCpu
                        (Waveform.Resize 3 digital3)))))))%Z
  ∧ WaveformBase.m_revision
      (Dispatch.as_base
         (Dispatch.Sampled
            (Waveform.clear
               (Waveform.PrepareForGpuAccess
                  (Waveform.MarkTimestampsModifiedFromCpu
                     (Waveform.Resize 3 digital3))))))
    = WaveformBase.m_revision (Dispatch.as_base (Dispatch.Sampled digital3)).
Proof.
  split; [reflexivity|].
  apply (revision_non_decreasing (S:=bool) string demo_colors 0
           HINT_LIKELY HINT_LIKELY lifecycle4 (Dispatch.Sampled digital3)).
  reflexivity.
Defined.

End Scenarios.

(** ** More on the buffer *)

Section MoreBufferFacts.

Import AcceleratorBuffer.

Context {T : Type}.

Implicit Types (b : AcceleratorBuffer.t T).

Lemma PrepareForGpuAccess_idem b :
  PrepareForGpuAccess (PrepareForGpuAccess b) = PrepareForGpuAccess b.
Proof.
  unfold PrepareForGpuAccess.
  by destruct (m_residency b) eqn:E; simpl; rewrite ?E.
Qed.

Lemma PrepareForGpuAccess_valid b :
  gpu_valid (m_residency (PrepareForGpuAccess b)) = true
  ∧ cpu_valid (m_residency (PrepareForGpuAccess b)) = cpu_valid (m_residency b).
Proof.
  unfold PrepareForGpuAccess.
  by destruct (m_residency b) eqn:E; simpl; rewrite ?E.
Qed.

Lemma PrepareForCpuAccess_gpu b : m_gpu (PrepareForCpuAccess b) = m_gpu b.
Proof. unfold PrepareForCpuAccess. by destruct (m_residency b). Qed.

Lemma PrepareForGpuAccess_cpu b : m_cpu (PrepareForGpuAccess b) = m_cpu b.
Proof. unfold PrepareForGpuAccess. by destruct (m_residency b). Qed.

Lemma PrepareForBoth_residency b :
  m_residency (PrepareForCpuAccess (PrepareForGpuAccess b)) = BothValid
  ∧ m_residency (PrepareForGpuAccess (PrepareForCpuAccess b)) = BothValid.
Proof.
  unfold PrepareForCpuAccess, PrepareForGpuAccess.
  by destruct (m_residency b) eqn:E; simpl; rewrite ?E.
Qed.

Lemma CopyFrom_inv rhs b b' :
  CopyFrom rhs b = Some b' →
  size b = size rhs
  ∧ b' = Build (m_cpu rhs) (m_gpu rhs) (m_residency rhs)
           (m_cpuAccessHint b) (m_gpuAccessHint b).
Proof. unfold CopyFrom. intros H. case_decide; [|done]. by simplify_eq. Qed.

End MoreBufferFacts.

(** ** More on the waveform operations *)

Section MoreLifecycle.

Import AcceleratorBuffer.

Context {S : Type}.

Variable Color : Type.
Variable colors : nat -> Color.
Variable COLOR_ERROR : nat.

Implicit Types (w : Waveform.t S) (b : WaveformBase.t) (o : Dispatch.Object S)
  (c : Dispatch.Call) (cs : list Dispatch.Call).

Local Abbreviation invoke := (Dispatch.invoke Color colors COLOR_ERROR).
Local Abbreviation run := (Dispatch.run Color colors COLOR_ERROR).

Lemma WaveformBase_CopyTimestamps_inv rhs b b' :
  WaveformBase.CopyTimestamps rhs b = Some b' →
  size (WaveformBase.m_offsets b) = size (WaveformBase.m_offsets rhs)
  ∧ size (WaveformBase.m_durations b) = size (WaveformBase.m_durations rhs)
  ∧ b' = WaveformBase.with_timestamps
           (Build (m_cpu (WaveformBase.m_offsets rhs))
                  (m_gpu (WaveformBase.m_offsets rhs))
                  (m_residency (WaveformBase.m_offsets rhs))
                  (m_cpuAccessHint (WaveformBase.m_offsets b))
                  (m_gpuAccessHint (WaveformBase.m_offsets b)))
           (Build (m_cpu (WaveformBase.m_durations rhs))
                  (m_gpu (WaveformBase.m_durations rhs))
                  (m_residency (WaveformBase.m_durations rhs))
                  (m_cpuAccessHint (WaveformBase.m_durations b))
                  (m_gpuAccessHint (WaveformBase.m_durations b)))
           b.
Proof.
  unfold WaveformBase.CopyTimestamps. intros H.
  destruct (CopyFrom _ (WaveformBase.m_offsets b)) as [x|] eqn:Ex; [|done].
  destruct (CopyFrom _ (WaveformBase.m_durations b)) as [y|] eqn:Ey; [|done].
  apply CopyFrom_inv in Ex as [? ->]. apply CopyFrom_inv in Ey as [? ->].
  by simplify_eq/=.
Qed.

Lemma Dispatch_CopyTimestamps_inv rhs o o' :
  Dispatch.CopyTimestamps rhs o = Some o' →
  WaveformBase.CopyTimestamps rhs (Dispatch.as_base o)
  = Some (Dispatch.as_base o')
  ∧ Dispatch.samples o' = Dispatch.samples o.
Proof.
  destruct o as [b|w]; simpl; intros H.
  - destruct (WaveformBase.CopyTimestamps rhs b); by simplify_eq/=.
  - unfold Waveform.CopyTimestamps in H.
    destruct (WaveformBase.CopyTimestamps rhs (Waveform.base w));
      by simplify_eq/=.
Qed.

(** Only clear and Resize touch a length. *)
Lemma invoke_lengths c o o' :
  sets_lengths c = false →
  object_well_formed o →
  invoke c o = Some o' →
  lengths o' = lengths o.
Proof.
  intros Hc (Hwo & Hwd & Hws) H. unfold lengths.
  destruct c; simpl in Hc, H; try done; simplify_eq.
  - by destruct o as [b|[b s]].
  - by destruct o as [b|[b s]].
  - destruct o as [b|[b s]]; simpl in *;
      unfold Waveform.m_offsets, Waveform.m_durations; simpl;
      by rewrite !size_PrepareForCpuAccess.
  - destruct o as [b|[b s]]; simpl in *;
      unfold Waveform.m_offsets, Waveform.m_durations; simpl;
      by rewrite !size_PrepareForGpuAccess.
  - apply Dispatch_CopyTimestamps_inv in H as [H ->].
    apply WaveformBase_CopyTimestamps_inv in H as (Ho & Hd & ->).
    simpl. unfold size in *. simpl. by rewrite Ho, Hd.
  - by destruct o as [b|[b s]].
  - by destruct o as [b|[b s]].
  - by destruct o as [b|[b s]].
  - by destruct o as [b|[b s]].
Qed.

Lemma invoke_well_formed c o o' :
  rhs_well_formed c →
  object_well_formed o →
  invoke c o = Some o' →
  object_well_formed o'.
Proof.
  intros Hc (Hwo & Hwd & Hws) H. unfold object_well_formed, all_buffers.
  destruct c; simpl in Hc, H; simplify_eq.
  - destruct o as [b|[b s]]; simpl; repeat split; apply well_formed_resize.
  - destruct o as [b|[b s]]; simpl; repeat split; apply well_formed_resize.
  - by destruct o as [b|[b s]].
  - by destruct o as [b|[b s]].
  - destruct o as [b|[b s]]; simpl in *; repeat split;
      by apply well_formed_PrepareForCpuAccess.
  - destruct o as [b|[b s]]; simpl in *; repeat split;
      by apply well_formed_PrepareForGpuAccess.
  - apply Dispatch_CopyTimestamps_inv in H as [H ->].
    apply WaveformBase_CopyTimestamps_inv in H as (Ho & Hd & ->).
    destruct Hc as [Hro Hrd]. by repeat split.
  - by destruct o as [b|[b s]].
  - by destruct o as [b|[b s]].
  - by destruct o as [b|[b s]].
  - by destruct o as [b|[b s]].
Qed.

Lemma lengths_agree_lengths o o' :
  lengths o' = lengths o → lengths_agree o → lengths_agree o'.
Proof.
  unfold lengths, lengths_agree. intros H [Hd Hs]. simplify_eq.
  split; [congruence|].
  destruct (Dispatch.samples o') as [s'|], (Dispatch.samples o) as [s|];
    simplify_eq/=; [congruence|done].
Qed.

Lemma invoke_consistent c o o' :
  rhs_well_formed c → consistent o → invoke c o = Some o' → consistent o'.
Proof.
  intros Hc [Hwf Hlen] H. split; [by eapply invoke_well_formed|].
  destruct (sets_lengths c) eqn:Hs.
  - destruct c; try done; simpl in H; simplify_eq;
      destruct o as [b|[b s]]; split; simpl;
      unfold Waveform.m_offsets, Waveform.m_durations; simpl;
      by rewrite ?size_resize, ?size_clear.
  - eapply lengths_agree_lengths; [|done]. by eapply invoke_lengths.
Qed.

Lemma run_consistent cs o o' :
  Forall rhs_well_formed cs → consistent o → run cs o = Some o' → consistent o'.
Proof.
  revert o. induction cs as [|c cs IH]; intros o Hcs Hok H; simpl in H.
  - by simplify_eq.
  - apply Forall_cons in Hcs as [Hc Hcs].
    destruct (invoke c o) as [o1|] eqn:E; [|done]. simpl in H.
    eapply IH; [done| |done]. by eapply invoke_consistent.
Qed.

Lemma new_consistent (cpuHint0 gpuHint0 : UsageHint) :
  consistent (S:=S) (Dispatch.Bare (WaveformBase.new cpuHint0 gpuHint0))
  ∧ consistent (Dispatch.Sampled (Waveform.new (S:=S) cpuHint0 gpuHint0)).
Proof. by repeat split. Qed.

End MoreLifecycle.

(** ** The dense-packed layout under the operations *)

Section CurrentCopies.

Import AcceleratorBuffer.

Context {T : Type}.

Implicit Types (b : AcceleratorBuffer.t T) (P : list (option T) → Prop).





Lemma current_copies_resize_0 b : current_copies (resize 0 b) = [[]; []].
Proof. reflexivity. Qed.

(** The copy a CPU-side read goes to is current unless it is stale. *)
Lemma current_copies_cpu P b :
  cpu_stale (m_residency b) = false → Forall P (current_copies b) → P (m_cpu b).
Proof.
  unfold current_copies. intros ->. simpl. rewrite Forall_cons. tauto.
Qed.

Lemma current_copies_gpu P b :
  gpu_stale (m_residency b) = false → Forall P (current_copies b) → P (m_gpu b).
Proof.
  unfold current_copies. intros ->.
  destruct (cpu_stale (m_residency b)); simpl; rewrite ?Forall_cons; tauto.
Qed.

End CurrentCopies.

Section DensePacked.

Import AcceleratorBuffer.

Context {S : Type}.

Variable Color : Type.
Variable colors : nat -> Color.
Variable COLOR_ERROR : nat.

Implicit Types (w : Waveform.t S) (b : WaveformBase.t) (o : Dispatch.Object S)
  (c : Dispatch.Call).

Local Abbreviation invoke := (Dispatch.invoke Color colors COLOR_ERROR).

(** Cell by cell: a copy is [dense_offsets n] when it has n cells and cell
    i holds i, and [dense_durations n] when it has n cells that all hold
    1. *)
Lemma dense_offsets_cells (n : nat) (l : list (option Z)) :
  l = dense_offsets n
  ↔ length l = n ∧ ∀ i : nat, i < n → l !! i = Some (Some (Z.of_nat i)).
Proof.
  unfold dense_offsets. split.
  - intros ->. split; [by rewrite length_fmap, length_seq|].
    intros i Hi. by rewrite list_lookup_fmap, lookup_seq_lt.
  - intros [Hlen Hcell]. apply list_eq. intros i.
    rewrite list_lookup_fmap. destruct (decide (i < n)) as [Hi|Hi].
    + by rewrite lookup_seq_lt, Hcell.
    + rewrite lookup_seq_ge by lia. apply lookup_ge_None. lia.
Qed.

Lemma dense_durations_cells (n : nat) (l : list (option Z)) :
  l = dense_durations n
  ↔ length l = n ∧ ∀ i : nat, i < n → l !! i = Some (Some 1%Z).
Proof.
  unfold dense_durations. split.
  - intros ->. split; [by rewrite length_replicate|].
    intros i Hi. by apply lookup_replicate_2.
  - intros [Hlen Hcell]. apply list_eq. intros i.
    destruct (decide (i < n)) as [Hi|Hi].
    + by rewrite lookup_replicate_2, Hcell.
    + rewrite (lookup_ge_None_2 (replicate n _)) by (rewrite length_replicate; lia).
      apply lookup_ge_None. lia.
Qed.

(** What the layout gives a CPU-side reader whose copies are not stale:
    offsets[i] = i and durations[i] = 1 for every i below the size. *)
Lemma dense_layout_cpu_read b (i : nat) :
  dense_layout b →
  cpu_stale (m_residency (WaveformBase.m_offsets b)) = false →
  cpu_stale (m_residency (WaveformBase.m_durations b)) = false →
  i < size (WaveformBase.m_offsets b) →
  cpu_read i (WaveformBase.m_offsets b) = Some (Z.of_nat i)
  ∧ cpu_read i (WaveformBase.m_durations b) = Some 1%Z
  ∧ size (WaveformBase.m_durations b) = size (WaveformBase.m_offsets b).
Proof.
  intros (n & Ho & Hd) Hso Hsd Hi.
  apply (current_copies_cpu _ _ Hso) in Ho.
  apply (current_copies_cpu _ _ Hsd) in Hd.
  apply dense_offsets_cells in Ho as [Hon Ho].
  apply dense_durations_cells in Hd as [Hdn Hd].
  unfold size, cpu_read in *. rewrite Hon in Hi.
  rewrite (Ho i Hi), (Hd i Hi). repeat split. congruence.
Qed.





End DensePacked.

Section DensePackedRuns.

Import AcceleratorBuffer.


End DensePackedRuns.

(** ** Further properties of the operations *)

Section ObjectProperties.

Import AcceleratorBuffer.

Context {S : Type}.

Variable Color : Type.
Variable colors : nat -> Color.
Variable COLOR_ERROR : nat.

Implicit Types (w : Waveform.t S) (b : WaveformBase.t) (o : Dispatch.Object S)
  (c : Dispatch.Call) (cs : list Dispatch.Call).

Local Abbreviation invoke := (Dispatch.invoke Color colors COLOR_ERROR).
Local Abbreviation run := (Dispatch.run Color colors COLOR_ERROR).

(** X1.  clear() leaves every buffer of the object empty, the sample buffer
    of a Waveform<S> included, and a second clear() changes nothing. *)
Theorem clear_empties_every_buffer o :
  lengths (Dispatch.clear o) = (0, 0, (λ _, 0) <$> Dispatch.samples o)
  ∧ Dispatch.clear (Dispatch.clear o) = Dispatch.clear o.
Proof. by destruct o as [b|[b s]]. Qed.

(** X2.  Only clear and Resize set a length: after any other call that is
    defined, on an object whose buffers are well formed, the offsets, the
    durations and the samples have the lengths they had. *)
Theorem lengths_set_only_by_clear_and_Resize c o o' :
  sets_lengths c = false →
  object_well_formed o →
  invoke c o = Some o' →
  lengths o' = lengths o.
Proof. apply invoke_lengths. Qed.

(** X3.  The cross-buffer length invariant.  A constructed WaveformBase and
    a constructed Waveform<S> have well-formed buffers of equal lengths, and
    any sequence of calls keeps this, CopyTimestamps sources being well
    formed: the lengths of offsets, durations and samples never drift
    apart. *)
Theorem lengths_never_drift (cpuHint0 gpuHint0 : UsageHint) cs o o' :
  Forall rhs_well_formed cs →
  consistent o →
  run cs o = Some o' →
  consistent o'
  ∧ consistent (S:=S) (Dispatch.Bare (WaveformBase.new cpuHint0 gpuHint0))
  ∧ consistent (Dispatch.Sampled (Waveform.new (S:=S) cpuHint0 gpuHint0)).
Proof.
  intros Hcs Hok H. split; [by eapply run_consistent|].
  apply new_consistent.
Qed.

(** X4.  After PrepareForCpuAccess() every buffer of the object is valid on
    the CPU side, whatever its state was; no buffer changes its validity on
    the GPU side or its GPU copy. *)
Theorem PrepareForCpuAccess_every_buffer o :
  all_buffers (λ T s, cpu_valid (m_residency s) = true)
    (Dispatch.PrepareForCpuAccess o)
  ∧ all_buffers2
      (λ T s s', gpu_valid (m_residency s') = gpu_valid (m_residency s)
                 ∧ m_gpu s' = m_gpu s)
      o (Dispatch.PrepareForCpuAccess o).
Proof.
  destruct o as [b|[b s]]; repeat split; simpl;
    try constructor; repeat split;
    solve [apply PrepareForCpuAccess_valid | apply PrepareForCpuAccess_gpu].
Qed.

(** X5.  After PrepareForGpuAccess() every buffer of the object is valid on
    the GPU side; no buffer changes its validity on the CPU side or its CPU
    copy. *)
Theorem PrepareForGpuAccess_every_buffer o :
  all_buffers (λ T s, gpu_valid (m_residency s) = true)
    (Dispatch.PrepareForGpuAccess o)
  ∧ all_buffers2
      (λ T s s', cpu_valid (m_residency s') = cpu_valid (m_residency s)
                 ∧ m_cpu s' = m_cpu s)
      o (Dispatch.PrepareForGpuAccess o).
Proof.
  destruct o as [b|[b s]]; repeat split; simpl;
    try constructor; repeat split;
    solve [apply PrepareForGpuAccess_valid | apply PrepareForGpuAccess_cpu].
Qed.

(** X6.  The two preparations are idempotent on the whole object, and after
    both of them, in either order, every buffer is valid in both domains. *)
Theorem Prepare_idempotent_and_joint o :
  Dispatch.PrepareForCpuAccess (Dispatch.PrepareForCpuAccess o)
  = Dispatch.PrepareForCpuAccess o
  ∧ Dispatch.PrepareForGpuAccess (Dispatch.PrepareForGpuAccess o)
    = Dispatch.PrepareForGpuAccess o
  ∧ all_buffers (λ T s, m_residency s = BothValid)
      (Dispatch.PrepareForCpuAccess (Dispatch.PrepareForGpuAccess o))
  ∧ all_buffers (λ T s, m_residency s = BothValid)
      (Dispatch.PrepareForGpuAccess (Dispatch.PrepareForCpuAccess o)).
Proof.
  split; [|split; [|split]].
  - destruct o as [b|[b s]]; simpl;
      unfold WaveformBase.PrepareForCpuAccess, Waveform.PrepareForCpuAccess,
        Waveform.m_offsets, Waveform.m_durations; simpl;
      by rewrite !PrepareForCpuAccess_idem.
  - destruct o as [b|[b s]]; simpl;
      unfold WaveformBase.PrepareForGpuAccess, Waveform.PrepareForGpuAccess,
        Waveform.m_offsets, Waveform.m_durations; simpl;
      by rewrite !PrepareForGpuAccess_idem.
  - destruct o as [b|[b s]]; repeat split; simpl;
      apply PrepareForBoth_residency.
  - destruct o as [b|[b s]]; repeat split; simpl;
      apply PrepareForBoth_residency.
Qed.

(** X7.  The overrides of Waveform<S> extend the base bodies: after the
    Waveform<S> version of clear, Resize, PrepareForCpuAccess or
    PrepareForGpuAccess the base subobject is what the WaveformBase version
    makes of it. *)
Theorem overrides_extend_base (n : nat) w :
  Waveform.base (Waveform.clear w) = WaveformBase.clear (Waveform.base w)
  ∧ Waveform.base (Waveform.Resize n w)
    = WaveformBase.Resize n (Waveform.base w)
  ∧ Waveform.base (Waveform.PrepareForCpuAccess w)
    = WaveformBase.PrepareForCpuAccess (Waveform.base w)
  ∧ Waveform.base (Waveform.PrepareForGpuAccess w)
    = WaveformBase.PrepareForGpuAccess (Waveform.base w).
Proof. by destruct w as [b s]. Qed.

(** X8.  No member function writes a scalar member: after any sequence of
    calls timescale, startTimestamp, startFemtoseconds, triggerPhase,
    densePacked and flags are what they were. *)
Theorem scalars_never_written cs o o' :
  run cs o = Some o' →
  WaveformBase.m_timescale (Dispatch.as_base o')
  = WaveformBase.m_timescale (Dispatch.as_base o)
  ∧ WaveformBase.m_startTimestamp (Dispatch.as_base o')
    = WaveformBase.m_startTimestamp (Dispatch.as_base o)
  ∧ WaveformBase.m_startFemtoseconds (Dispatch.as_base o')
    = WaveformBase.m_startFemtoseconds (Dispatch.as_base o)
  ∧ WaveformBase.m_triggerPhase (Dispatch.as_base o')
    = WaveformBase.m_triggerPhase (Dispatch.as_base o)
  ∧ WaveformBase.m_densePacked (Dispatch.as_base o')
    = WaveformBase.m_densePacked (Dispatch.as_base o)
  ∧ WaveformBase.m_flags (Dispatch.as_base o')
    = WaveformBase.m_flags (Dispatch.as_base o).
Proof.
  intros H. apply (run_metadata Color colors COLOR_ERROR) in H.
  unfold WaveformBase.metadata in H. by simplify_eq.
Qed.

(** X10.  Timestamp copies chain: once B.CopyTimestamps(A) has run, copying
    from B into any C does what copying from A into C does, and copying A
    into B again changes nothing. *)
Theorem CopyTimestamps_chain (A B B' C : WaveformBase.t) :
  WaveformBase.CopyTimestamps A B = Some B' →
  WaveformBase.CopyTimestamps B' C = WaveformBase.CopyTimestamps A C
  ∧ WaveformBase.CopyTimestamps A B' = Some B'.
Proof.
  intros H. apply WaveformBase_CopyTimestamps_inv in H as (Ho & Hd & ->).
  split; [reflexivity|].
  by rewrite WaveformBase_CopyTimestamps_Some.
Qed.

(** X11.  CopyTimestamps carries the dense layout over and nothing else of
    the metadata: when the source has offsets[i] = i and durations[i] = 1
    for all i, so has the destination after the copy, and the destination
    keeps its own densePacked flag. *)
Theorem CopyTimestamps_dense_source (A : WaveformBase.t) o o' :
  Dispatch.CopyTimestamps A o = Some o' →
  dense_layout A →
  dense_layout (Dispatch.as_base o')
  ∧ dense_packed_ok (Dispatch.as_base o')
  ∧ WaveformBase.m_densePacked (Dispatch.as_base o')
    = WaveformBase.m_densePacked (Dispatch.as_base o).
Proof.
  intros H HA. apply Dispatch_CopyTimestamps_inv in H as [H _].
  apply WaveformBase_CopyTimestamps_inv in H as (Ho & Hd & ->).
  assert (Hl : dense_layout
    (WaveformBase.with_timestamps
       (Build (m_cpu (WaveformBase.m_offsets A)) (m_gpu (WaveformBase.m_offsets A))
          (m_residency (WaveformBase.m_offsets A))
          (m_cpuAccessHint (WaveformBase.m_offsets (Dispatch.as_base o)))
          (m_gpuAccessHint (WaveformBase.m_offsets (Dispatch.as_base o))))
       (Build (m_cpu (WaveformBase.m_durations A)) (m_gpu (WaveformBase.m_durations A))
          (m_residency (WaveformBase.m_durations A))
          (m_cpuAccessHint (WaveformBase.m_durations (Dispatch.as_base o)))
          (m_gpuAccessHint (WaveformBase.m_durations (Dispatch.as_base o))))
       (Dispatch.as_base o))) by exact HA.
  split; [done|]. split; [by intros _|done].
Qed.

(** X12.  Publishing a Waveform<S> from the CPU.  After both marks from the
    CPU and PrepareForGpuAccess(), each of the three buffers has its CPU
    copy unchanged, a GPU copy equal to it, and is valid in both domains; a
    PrepareForCpuAccess() after that changes nothing. *)
Theorem publish_from_cpu_reaches_gpu w :
  all_buffers2
    (λ T s s', m_cpu s' = m_cpu s ∧ m_gpu s' = m_cpu s
               ∧ m_residency s' = BothValid)
    (Dispatch.Sampled w) (Dispatch.Sampled (publish_from_cpu w))
  ∧ Waveform.PrepareForCpuAccess (publish_from_cpu w) = publish_from_cpu w.
Proof. destruct w as [b s]. split; [|done]. repeat split. by constructor. Qed.

(** X13.  Publishing a Waveform<S> from the GPU.  After both marks from the
    GPU and PrepareForCpuAccess(), each of the three buffers has its GPU
    copy unchanged, a CPU copy equal to it, and is valid in both domains; a
    PrepareForGpuAccess() after that changes nothing. *)
Theorem publish_from_gpu_reaches_cpu w :
  all_buffers2
    (λ T s s', m_gpu s' = m_gpu s ∧ m_cpu s' = m_gpu s
               ∧ m_residency s' = BothValid)
    (Dispatch.Sampled w) (Dispatch.Sampled (publish_from_gpu w))
  ∧ Waveform.PrepareForGpuAccess (publish_from_gpu w) = publish_from_gpu w.
Proof. destruct w as [b s]. split; [|done]. repeat split. by constructor. Qed.

(** X14.  On a bare WaveformBase whose timestamp buffers are valid on the
    GPU side, MarkTimestampsModifiedFromCpu() followed by
    PrepareForGpuAccess() leaves the GPU copies of the offsets and of the
    durations as they were, whatever the CPU copies hold; on a Waveform<S>
    the same two calls give the GPU copies the CPU content. *)
Theorem bare_timestamps_never_reach_gpu b w :
  gpu_valid (m_residency (WaveformBase.m_offsets b)) = true →
  gpu_valid (m_residency (WaveformBase.m_durations b)) = true →
  (m_gpu (WaveformBase.m_offsets (Dispatch.as_base
       (Dispatch.PrepareForGpuAccess (S:=S)
          (Dispatch.MarkTimestampsModifiedFromCpu (Dispatch.Bare b)))))
   = m_gpu (WaveformBase.m_offsets b)
   ∧ m_gpu (WaveformBase.m_durations (Dispatch.as_base
        (Dispatch.PrepareForGpuAccess (S:=S)
           (Dispatch.MarkTimestampsModifiedFromCpu (Dispatch.Bare b)))))
     = m_gpu (WaveformBase.m_durations b))
  ∧ (m_gpu (WaveformBase.m_offsets (Dispatch.as_base
        (Dispatch.PrepareForGpuAccess
           (Dispatch.MarkTimestampsModifiedFromCpu (Dispatch.Sampled w)))))
     = m_cpu (Waveform.m_offsets w)
     ∧ m_gpu (WaveformBase.m_durations (Dispatch.as_base
          (Dispatch.PrepareForGpuAccess
             (Dispatch.MarkTimestampsModifiedFromCpu (Dispatch.Sampled w)))))
       = m_cpu (Waveform.m_durations w)).
Proof.
  intros Ho Hd. split; [|by destruct w].
  simpl. unfold WaveformBase.MarkTimestampsModifiedFromCpu, PrepareForGpuAccess.
  destruct (m_residency (WaveformBase.m_offsets b)),
           (m_residency (WaveformBase.m_durations b));
    simpl in Ho, Hd; try discriminate; by split.
Qed.

(** X15.  On a Waveform<S> the sample marks reach the sample buffer only,
    leaving the base subobject (metadata and both timestamp buffers) as it
    is, and they commute with the timestamp marks. *)
Theorem sample_marks_independent w :
  Waveform.base (Waveform.MarkSamplesModifiedFromCpu w) = Waveform.base w
  ∧ Waveform.base (Waveform.MarkSamplesModifiedFromGpu w) = Waveform.base w
  ∧ Waveform.m_samples (Waveform.MarkSamplesModifiedFromCpu w)
    = MarkModifiedFromCpu (Waveform.m_samples w)
  ∧ Waveform.m_samples (Waveform.MarkSamplesModifiedFromGpu w)
    = MarkModifiedFromGpu (Waveform.m_samples w)
  ∧ Waveform.MarkSamplesModifiedFromCpu (Waveform.MarkTimestampsModifiedFromCpu w)
    = Waveform.MarkTimestampsModifiedFromCpu (Waveform.MarkSamplesModifiedFromCpu w)
  ∧ Waveform.MarkSamplesModifiedFromCpu (Waveform.MarkTimestampsModifiedFromGpu w)
    = Waveform.MarkTimestampsModifiedFromGpu (Waveform.MarkSamplesModifiedFromCpu w)
  ∧ Waveform.MarkSamplesModifiedFromGpu (Waveform.MarkTimestampsModifiedFromCpu w)
    = Waveform.MarkTimestampsModifiedFromCpu (Waveform.MarkSamplesModifiedFromGpu w)
  ∧ Waveform.MarkSamplesModifiedFromGpu (Waveform.MarkTimestampsModifiedFromGpu w)
    = Waveform.MarkTimestampsModifiedFromGpu (Waveform.MarkSamplesModifiedFromGpu w).
Proof. by destruct w as [b s]. Qed.

End ObjectProperties.

Section CallingSequences.

Import AcceleratorBuffer.

Context {S : Type}.

Implicit Types (o : Dispatch.Object S).

(** X16.  The calling sequence the header asks for.  Resize to the number
    of offsets of the source, then CopyTimestamps from it: when the source
    has as many durations as offsets the copy is defined, the destination
    holds the source's offsets and durations, and all its buffers, the
    sample buffer included, have the source's length. *)
Theorem Resize_to_source_then_CopyTimestamps (A : WaveformBase.t) o :
  size (WaveformBase.m_durations A) = size (WaveformBase.m_offsets A) →
  ∃ o', Dispatch.CopyTimestamps A
          (Dispatch.Resize (size (WaveformBase.m_offsets A)) o) = Some o'
    ∧ m_cpu (WaveformBase.m_offsets (Dispatch.as_base o'))
      = m_cpu (WaveformBase.m_offsets A)
    ∧ m_cpu (WaveformBase.m_durations (Dispatch.as_base o'))
      = m_cpu (WaveformBase.m_durations A)
    ∧ lengths o'
      = (size (WaveformBase.m_offsets A), size (WaveformBase.m_offsets A),
         (λ _, size (WaveformBase.m_offsets A)) <$> Dispatch.samples o).
Proof.
  intros Hlen.
  destruct o as [b|[b s]]; simpl; unfold Waveform.CopyTimestamps; simpl;
    rewrite WaveformBase_CopyTimestamps_Some; simpl;
    rewrite ?size_resize, ?Hlen; try done;
    (eexists; split; [reflexivity|]); unfold lengths, size in *; simpl;
    rewrite ?length_replicate, ?Hlen; done.
Qed.

End CallingSequences.

(** ** Concrete runs of the further properties *)

Section MoreScenarios.

Import AcceleratorBuffer.

Lemma digital3_well_formed :
  object_well_formed (Dispatch.Sampled digital3).
Proof. by repeat split. Qed.

Lemma digital3_consistent : consistent (Dispatch.Sampled digital3).
Proof. by repeat split. Qed.

Lemma lifecycle_copy_run :
  Dispatch.run string demo_colors 0 lifecycle_copy (Dispatch.Sampled digital3)
  = Some (Dispatch.Sampled lifecycle_copy_result).
Proof. reflexivity. Qed.

Lemma lengths_set_only_by_clear_and_Resize_witness :
  sets_lengths Dispatch.CallPrepareForCpuAccess = false
  ∧ object_well_formed (Dispatch.Sampled digital3)
  ∧ Dispatch.invoke string demo_colors 0 Dispatch.CallPrepareForCpuAccess
      (Dispatch.Sampled digital3)
    = Some (Dispatch.Sampled (Waveform.PrepareForCpuAccess digital3))
  ∧ lengths (Dispatch.Sampled (Waveform.PrepareForCpuAccess digital3))
    = lengths (Dispatch.Sampled digital3).
Proof.
  split; [reflexivity|]. split; [apply digital3_well_formed|].
  split; [reflexivity|].
  apply (lengths_set_only_by_clear_and_Resize string demo_colors 0
           Dispatch.CallPrepareForCpuAccess (Dispatch.Sampled digital3));
    [reflexivity|apply digital3_well_formed|reflexivity].
Defined.

Lemma lifecycle_copy_rhs : Forall rhs_well_formed lifecycle_copy.
Proof. repeat constructor. Qed.

Lemma lengths_never_drift_witness :
  Forall rhs_well_formed lifecycle_copy
  ∧ consistent (Dispatch.Sampled digital3)
  ∧ Dispatch.run string demo_colors 0 lifecycle_copy (Dispatch.Sampled digital3)
    = Some (Dispatch.Sampled lifecycle_copy_result)
  ∧ consistent (Dispatch.Sampled lifecycle_copy_result)
  ∧ consistent (S:=bool)
      (Dispatch.Bare (WaveformBase.new HINT_LIKELY HINT_LIKELY))
  ∧ consistent
      (Dispatch.Sampled (Waveform.new (S:=bool) HINT_LIKELY HINT_LIKELY)).
Proof.
  split; [apply lifecycle_copy_rhs|]. split; [apply digital3_consistent|].
  split; [apply lifecycle_copy_run|].
  apply (lengths_never_drift string demo_colors 0 HINT_LIKELY HINT_LIKELY
           lifecycle_copy (Dispatch.Sampled digital3));
    [apply lifecycle_copy_rhs|apply digital3_consistent|apply lifecycle_copy_run].
Defined.

Lemma scalars_never_written_witness :
  Dispatch.run string demo_colors 0 lifecycle_copy (Dispatch.Sampled digital3)
  = Some (Dispatch.Sampled lifecycle_copy_result)
  ∧ WaveformBase.m_timescale (Waveform.base lifecycle_copy_result)
    = WaveformBase.m_timescale (Waveform.base digital3)
  ∧ WaveformBase.m_startTimestamp (Waveform.base lifecycle_copy_result)
    = WaveformBase.m_startTimestamp (Waveform.base digital3)
  ∧ WaveformBase.m_startFemtoseconds (Waveform.base lifecycle_copy_result)
    = WaveformBase.m_startFemtoseconds (Waveform.base digital3)
  ∧ WaveformBase.m_triggerPhase (Waveform.base lifecycle_copy_result)
    = WaveformBase.m_triggerPhase (Waveform.base digital3)
  ∧ WaveformBase.m_densePacked (Waveform.base lifecycle_copy_result)
    = WaveformBase.m_densePacked (Waveform.base digital3)
  ∧ WaveformBase.m_flags (Waveform.base lifecycle_copy_result)
    = WaveformBase.m_flags (Waveform.base digital3).
Proof.
  split; [apply lifecycle_copy_run|].
  apply (scalars_never_written string demo_colors 0 lifecycle_copy
           (Dispatch.Sampled digital3) (Dispatch.Sampled lifecycle_copy_result)).
  apply lifecycle_copy_run.
Defined.

Lemma CopyTimestamps_chain_witness :
  WaveformBase.CopyTimestamps sparse3 dense3 = Some dense3_overwritten
  ∧ WaveformBase.CopyTimestamps dense3_overwritten (Waveform.base digital3)
    = WaveformBase.CopyTimestamps sparse3 (Waveform.base digital3)
  ∧ WaveformBase.CopyTimestamps sparse3 dense3_overwritten
    = Some dense3_overwritten.
Proof.
  split; [reflexivity|].
  apply (CopyTimestamps_chain sparse3 dense3 dense3_overwritten
           (Waveform.base digital3)).
  reflexivity.
Defined.

Lemma CopyTimestamps_dense_source_witness :
  Dispatch.CopyTimestamps dense3 (Dispatch.Sampled digital3)
  = Some (Dispatch.Sampled
            {| Waveform.base := timestamped false [0; 1; 2]%Z [1; 1; 1]%Z;
               Waveform.m_samples := Waveform.m_samples digital3 |})
  ∧ dense_layout dense3
  ∧ dense_layout (timestamped false [0; 1; 2]%Z [1; 1; 1]%Z)
  ∧ dense_packed_ok (timestamped false [0; 1; 2]%Z [1; 1; 1]%Z)
  ∧ WaveformBase.m_densePacked (timestamped false [0; 1; 2]%Z [1; 1; 1]%Z)
    = WaveformBase.m_densePacked (Waveform.base digital3).
Proof.
  split; [reflexivity|]. split; [apply dense3_layout|].
  apply (CopyTimestamps_dense_source dense3 (Dispatch.Sampled digital3)
           (Dispatch.Sampled
              {| Waveform.base := timestamped false [0; 1; 2]%Z [1; 1; 1]%Z;
                 Waveform.m_samples := Waveform.m_samples digital3 |}));
    [reflexivity|apply dense3_layout].
Defined.

Lemma bare_timestamps_never_reach_gpu_witness :
  gpu_valid (m_residency (WaveformBase.m_offsets stale3)) = true
  ∧ gpu_valid (m_residency (WaveformBase.m_durations stale3)) = true
  ∧ (m_gpu (WaveformBase.m_offsets (Dispatch.as_base
        (Dispatch.PrepareForGpuAccess (S:=bool)
           (Dispatch.MarkTimestampsModifiedFromCpu (Dispatch.Bare stale3)))))
     = m_gpu (WaveformBase.m_offsets stale3)
     ∧ m_gpu (WaveformBase.m_durations (Dispatch.as_base
          (Dispatch.PrepareForGpuAccess (S:=bool)
             (Dispatch.MarkTimestampsModifiedFromCpu (Dispatch.Bare stale3)))))
       = m_gpu (WaveformBase.m_durations stale3))
  ∧ (m_gpu (WaveformBase.m_offsets (Dispatch.as_base
        (Dispatch.PrepareForGpuAccess
           (Dispatch.MarkTimestampsModifiedFromCpu (Dispatch.Sampled digital3)))))
     = m_cpu (Waveform.m_offsets digital3)
     ∧ m_gpu (WaveformBase.m_durations (Dispatch.as_base
          (Dispatch.PrepareForGpuAccess
             (Dispatch.MarkTimestampsModifiedFromCpu (Dispatch.Sampled digital3)))))
       = m_cpu (Waveform.m_durations digital3)).
Proof.
  split; [reflexivity|]. split; [reflexivity|].
  apply (bare_timestamps_never_reach_gpu stale3 digital3); reflexivity.
Defined.

(** The offsets [stale3] shows to the GPU are not those the CPU holds. *)
Example stale3_differs :
  cpu_read 1 (WaveformBase.m_offsets stale3) = Some 5%Z
  ∧ m_gpu (WaveformBase.m_offsets (Dispatch.as_base
       (Dispatch.PrepareForGpuAccess (S:=bool)
          (Dispatch.MarkTimestampsModifiedFromCpu (Dispatch.Bare stale3)))))
    !! 1 = Some (Some 1%Z).
Proof. by split. Qed.

Lemma Resize_to_source_then_CopyTimestamps_witness :
  size (WaveformBase.m_durations sparse3) = size (WaveformBase.m_offsets sparse3)
  ∧ ∃ o', Dispatch.CopyTimestamps sparse3
            (Dispatch.Resize (size (WaveformBase.m_offsets sparse3))
               (Dispatch.Sampled
                  (Waveform.new (S:=bool) HINT_LIKELY HINT_LIKELY))) = Some o'
      ∧ m_cpu (WaveformBase.m_offsets (Dispatch.as_base o'))
        = m_cpu (WaveformBase.m_offsets sparse3)
      ∧ m_cpu (WaveformBase.m_durations (Dispatch.as_base o'))
        = m_cpu (WaveformBase.m_durations sparse3)
      ∧ lengths o'
        = (size (WaveformBase.m_offsets sparse3),
           size (WaveformBase.m_offsets sparse3),
           (λ _, size (WaveformBase.m_offsets sparse3))
             <$> Dispatch.samples
                   (Dispatch.Sampled
                      (Waveform.new (S:=bool) HINT_LIKELY HINT_LIKELY))).
Proof.
  split; [reflexivity|].
  apply (Resize_to_source_then_CopyTimestamps sparse3
           (Dispatch.Sampled (Waveform.new (S:=bool) HINT_LIKELY HINT_LIKELY))).
  reflexivity.
Defined.

End MoreScenarios.
